(** * The tool-augmented dialogue loop of the log-analyzer agent

    A shallow embedding of the Python sources under
    [03-ai-agent-for-devops/code/{06,07,08,09}]: the response normalizer
    ([extract_response_text]), the tool dispatch of [_handle_tool_calls],
    the agent loop of [process_query], and the conversation memory of the
    chapter 06/07 variants.

    Python objects are modelled by the values the code inspects; the model
    transport and the tool executors are external collaborators and appear
    as oracles over an abstract [World]. *)

From Stdlib Require Import ZArith.
From stdpp Require Import base option list strings gmap pretty.

(** ** Python values *)

(** The values that can sit in a dict handed over by the transport: tool
    arguments and the fields of a content block. *)
Inductive PyVal : Type :=
  | PStr (s : string)
  | PInt (z : Z)
  | PBool (b : bool)
  | PNone
  | PObj (type_name repr : string).

(** [type(v).__name__], as it shows up in a [TypeError] message. *)
Definition py_type_name (v : PyVal) : string :=
  match v with
  | PStr _ => "str"
  | PInt _ => "int"
  | PBool _ => "bool"
  | PNone => "NoneType"
  | PObj t _ => t
  end.

(** An exception instance: its class and [str(e)]. Only subclasses of
    [Exception] are modelled; they are what [except Exception] catches. *)
Record Exn : Type := MkExn { exn_class : string; exn_str : string }.

Inductive Outcome (A : Type) : Type :=
  | Returns (a : A)
  | Raises (e : Exn).
Arguments Returns {A} a.
Arguments Raises {A} e.

(** The value of an outcome, if it is not an exception. *)
Definition outcome_value {A} (o : Outcome A) : option A :=
  match o with
  | Returns a => Some a
  | Raises _ => None
  end.

Definition outcome_bind {A B} (o : Outcome A) (k : A -> Outcome B) : Outcome B :=
  match o with
  | Returns a => k a
  | Raises e => Raises e
  end.

(** ** Messages and responses *)

(** One entry of [response.tool_calls]: the dict with keys
    ['name'], ['args'] and ['id']. *)
Record ToolCall : Type := MkToolCall {
  tc_name : string;
  tc_args : gmap string PyVal;
  tc_id : string
}.

(** One element of a list-valued [content]. *)
Inductive Block : Type :=
  | BStr (s : string)
  | BDict (d : gmap string PyVal)
  | BOther (repr : string).

(** [message.content]: a [str], a list of blocks, or anything else, of
    which only [str(content)] is observed. *)
Inductive Content : Type :=
  | CStr (s : string)
  | CBlocks (blocks : list Block)
  | COther (repr : string).

(** What a chat model's [invoke] returns: an [AIMessage]. *)
Record AIMsg : Type := MkAIMsg {
  content : Content;
  tool_calls : list ToolCall
}.

Inductive Message : Type :=
  | SystemMessage (text : string)
  | HumanMessage (text : string)
  | AIMessage (m : AIMsg)
  | ToolMessage (text : string) (tool_call_id : string).

(** The argument of [extract_response_text]: the function probes it with
    [hasattr(response, 'content')], so it also accepts plain strings and
    objects without that attribute. *)
Inductive Response : Type :=
  | RStr (s : string)
  | RMessage (m : AIMsg)
  | ROpaque (repr : string).

(** [hasattr(response, 'tool_calls') and response.tool_calls] *)
Definition requests_tools (response : AIMsg) : bool :=
  match tool_calls response with
  | [] => false
  | _ :: _ => true
  end.

(** ** Response normalizer: [utils/response.py] (chapter 07), repeated in
    [langchain_log_analyzer.py] (chapter 06) *)

Definition nl : string := String (Ascii.ascii_of_nat 10) EmptyString.

(** [''.join(parts)]: Python raises [TypeError] at the first item that is
    not a [str]; [i] is the index of the head of [parts]. *)
Fixpoint str_join_from (i : nat) (parts : list PyVal) : Outcome string :=
  match parts with
  | [] => Returns ""
  | PStr s :: rest =>
      outcome_bind (str_join_from (S i) rest) (fun t => Returns (s +:+ t))
  | v :: _ =>
      Raises (MkExn "TypeError"
                ("sequence item " +:+ pretty i +:+ ": expected str instance, "
                   +:+ py_type_name v +:+ " found"))
  end.

Definition str_join (parts : list PyVal) : Outcome string := str_join_from 0 parts.

(** The body of [for block in response.content], as the list of values it
    appends to [text_parts] for one block. *)
Definition block_text_parts (block : Block) : list PyVal :=
  match block with
  | BDict d =>
      match d !! "text" with
      | Some v => [v]
      | None => []
      end
  | BStr s => [PStr s]
  | BOther _ => []
  end.

Fixpoint collect_text_parts (blocks : list Block) (text_parts : list PyVal) : list PyVal :=
  match blocks with
  | [] => text_parts
  | block :: rest => collect_text_parts rest (text_parts ++ block_text_parts block)
  end.

Definition extract_response_text (response : Response) : Outcome string :=
  match response with
  | RMessage m =>
      match content m with
      | CStr s => Returns s
      | CBlocks blocks => str_join (collect_text_parts blocks [])
      | COther repr => Returns repr
      end
  | RStr s => Returns s
  | ROpaque repr => Returns repr
  end.

(** The textual portion of a block, when it carries one. *)
Definition block_text (block : Block) : option string :=
  match block with
  | BStr s => Some s
  | BDict d =>
      match d !! "text" with
      | Some (PStr s) => Some s
      | _ => None
      end
  | BOther _ => None
  end.

(** A dict block is well formed when its ['text'] entry, if any, is a
    [str]. *)
Definition text_is_str (block : Block) : bool :=
  match block with
  | BDict d =>
      match d !! "text" with
      | Some (PStr _) | None => true
      | Some _ => false
      end
  | _ => true
  end.

Definition concat_strings (parts : list string) : string :=
  foldr String.append "" parts.

Definition example_blocks : list Block :=
  [BDict {[ "text" := PStr "a" ]}; BStr "b"; BDict {[ "other" := PInt 1 ]}].

(** ** The Python runtime: external world, transport log, heap *)

(** A registered tool ([@tool] objects of [tools/log_reader.py] and
    [tools/actions.py]): its [name] and its [invoke], which may perform I/O
    on the world and either returns text or raises. *)
Record Tool (World : Type) : Type := MkTool {
  name : string;
  invoke : gmap string PyVal -> World -> Outcome string * World
}.
Arguments MkTool {World} name invoke.
Arguments name {World} t.
Arguments invoke {World} t args w.

(** The model transport: [bound] tells whether the call goes through
    [llm_with_tools] (true) or through the bare [llm] (false). *)
Definition Transport (World : Type) : Type :=
  bool -> list Message -> World -> Outcome AIMsg * World.

(** One invocation of the transport, as recorded by the instrumentation. *)
Record Exchange : Type := MkExchange {
  bound : bool;
  sent : list Message;
  reply : Outcome AIMsg
}.

(** [heap] holds the [InMemoryChatMessageHistory] objects by address;
    [transport_log] is ghost state listing the transport invocations in the
    order they were made. *)
Record Store (World : Type) : Type := MkStore {
  world : World;
  transport_log : list Exchange;
  heap : gmap nat (list Message)
}.
Arguments MkStore {World} world transport_log heap.
Arguments world {World} s.
Arguments transport_log {World} s.
Arguments heap {World} s.

(** Computations of the Python program: they read and write the store and
    either return a value or raise. Effects made before a [raise] stay. *)
Definition Run (World A : Type) : Type := Store World -> Outcome A * Store World.

Section Runtime.
Context {World : Type}.

Definition ret {A} (a : A) : Run World A := fun st => (Returns a, st).

Definition bind {A B} (m : Run World A) (k : A -> Run World B) : Run World B :=
  fun st =>
    match m st with
    | (Returns a, st') => k a st'
    | (Raises e, st') => (Raises e, st')
    end.

(** [try: body / except Exception as e: handler e] *)
Definition try_except {A} (body : Run World A) (handler : Exn -> Run World A)
  : Run World A :=
  fun st =>
    match body st with
    | (Returns a, st') => (Returns a, st')
    | (Raises e, st') => handler e st'
    end.

Definition lift_outcome {A} (o : Outcome A) : Run World A := fun st => (o, st).

(** [for x in xs: acc = body x acc], for a loop that only updates the
    local [acc]. *)
Fixpoint for_each {A B} (xs : list A) (body : A -> B -> Run World B) (acc : B)
  : Run World B :=
  match xs with
  | [] => ret acc
  | x :: rest => bind (body x acc) (fun acc' => for_each rest body acc')
  end.

Variable transport : Transport World.

Definition model_invoke (bound : bool) (messages : list Message) : Run World AIMsg :=
  fun st =>
    let '(o, w) := transport bound messages (world st) in
    (o, MkStore w (transport_log st ++ [MkExchange bound messages o]) (heap st)).

(** [self.llm.invoke(messages)] *)
Definition llm_invoke : list Message -> Run World AIMsg := model_invoke false.

(** [self.llm_with_tools.invoke(messages)] *)
Definition llm_with_tools_invoke : list Message -> Run World AIMsg := model_invoke true.

(** [tool.invoke(tool_args)] *)
Definition tool_invoke (tool : Tool World) (tool_args : gmap string PyVal)
  : Run World string :=
  fun st =>
    let '(o, w) := invoke tool tool_args (world st) in
    (o, MkStore w (transport_log st) (heap st)).

(** [InMemoryChatMessageHistory()] *)
Definition new_history : Run World nat :=
  fun st =>
    let r := fresh (dom (heap st)) in
    (Returns r, MkStore (world st) (transport_log st) (<[r := []]> (heap st))).

(** [hist.messages] *)
Definition snapshot (h : gmap nat (list Message)) (hist : nat) : list Message :=
  default [] (h !! hist).

Definition history_messages (hist : nat) : Run World (list Message) :=
  fun st => (Returns (snapshot (heap st) hist), st).

(** [hist.add_messages(ms)] *)
Definition add_messages (hist : nat) (ms : list Message) : Run World unit :=
  fun st =>
    (Returns tt,
     MkStore (world st) (transport_log st)
       (<[hist := snapshot (heap st) hist ++ ms]> (heap st))).

Definition add_user_message (hist : nat) (text : string) : Run World unit :=
  add_messages hist [HumanMessage text].

Definition add_ai_message (hist : nat) (text : string) : Run World unit :=
  add_messages hist [AIMessage (MkAIMsg (CStr text) [])].

End Runtime.

Notation "'let*' x ':=' m 'in' k" :=
  (bind m (fun x => k))
  (at level 10, x binder, m at level 100, k at level 200).

(** The system entry of [self.prompt]. [ChatPromptTemplate.from_messages]
    reads the text of [("system", text)] as an f-string template, so
    formatting it with [chat_history] and [input] unescapes [{{] and [}}],
    fills in [{input}] and [{chat_history}], and raises (a [KeyError] for
    any other [{name}]) before any model call. A template is modelled by
    what formatting it with a history and an input gives: the formatted
    text, or the exception. Chapter 09 reads the text from a file, chapter
    08 from a [config.py] that is not at hand. *)
Definition SystemTemplate : Type := list Message -> string -> Outcome string.

(** The template of a text in which no brace occurs, as the literals of
    chapters 06 and 07 are: such a text is its own formatting. *)
Definition plain_prompt (text : string) : SystemTemplate := fun _ _ => Returns text.

(** The value of the prompt once the system entry has been formatted to
    [system_text]: the placeholder is replaced by the history as it is, and
    [("user", "{input}")] by the input as it is. *)
Definition prompt_messages (system_text : string) (chat_history : list Message)
    (input : string) : list Message :=
  [SystemMessage system_text] ++ chat_history ++ [HumanMessage input].

(** [ChatPromptTemplate.from_messages([("system", ...),
    MessagesPlaceholder("chat_history"), ("user", "{input}")])
    .format_messages(chat_history=chat_history, input=input)] *)
Definition format_messages (system_prompt : SystemTemplate) (chat_history : list Message)
    (input : string) : Outcome (list Message) :=
  outcome_bind (system_prompt chat_history input)
    (fun system_text => Returns (prompt_messages system_text chat_history input)).

(** The first tool of the registry whose name is [tool_name]:
    [tool_func = None; for tool in self.tools: if tool.name == tool_name:
    tool_func = tool; break]. *)
Definition find_tool {World} (tools : list (Tool World)) (tool_name : string)
    : option (Tool World) :=
  List.find (fun tool => String.eqb (name tool) tool_name) tools.

Definition is_registered {World} (tools : list (Tool World)) (tool_call : ToolCall) : bool :=
  existsb (fun tool => String.eqb (name tool) (tc_name tool_call)) tools.

(** [except Exception as e: error_msg = f"Error processing query: {str(e)}";
    ...; return error_msg] *)
Definition error_msg (e : Exn) : string := "Error processing query: " +:+ exn_str e.

(** [RunnableWithMessageHistory(chain, get_session_history,
    input_messages_key="input", history_messages_key="chat_history")
    .invoke({"input": input}, config={"configurable": {"session_id": ...}})]
    with [chain = prompt | llm_with_tools]. The wrapper is langchain_core's:
    it asks the factory for the history of the session, runs the chain with
    the history's messages in the placeholder, and when the chain has ended
    without an exception it appends the input message and the output
    message to that history (it "is responsible for reading and updating
    the chat message history": its [_exit_history] listener calls
    [hist.add_messages(input_messages + output_messages)]). When the chain
    raises, nothing is appended. *)
Definition chain_with_history_invoke {World} (transport : Transport World)
    (prompt : SystemTemplate) (get_session_history : string -> nat)
    (input : string) (session_id : string) : Run World AIMsg :=
  let hist := get_session_history session_id in
  let* chat_history := history_messages hist in
  let* messages := lift_outcome (format_messages prompt chat_history input) in
  let* response := llm_with_tools_invoke transport messages in
  let* _ := add_messages hist [HumanMessage input; AIMessage response] in
  ret response.

(** ** Chapter 09: [agents/log_analyzer.py], the iterative agent loop *)

Module Ch09.
Section Agent.
Context {World : Type}.
Variable transport : Transport World.
(** [get_log_tools()] of [tools/log_reader.py] and the tool of
    [tools/actions.py]; [system_prompt] is the template made of
    [Config.get_system_prompt()]. *)
Variable get_log_tools : list (Tool World).
Variable restart_kubernetes_pod : Tool World.
Variable system_prompt : SystemTemplate.

(** [Config.MAX_ITERATIONS]; the agent does not read it. *)
Definition MAX_ITERATIONS : nat := 5.

(** [tools/__init__.py] *)
Definition get_all_tools : list (Tool World) :=
  get_log_tools ++ [restart_kubernetes_pod].

(** [self.tools] *)
Definition tools : list (Tool World) := get_all_tools.

(** The body of [for tool_call in current_response.tool_calls]. *)
Definition execute_tool_call (tool_call : ToolCall) (tool_messages : list Message)
  : Run World (list Message) :=
  let tool_name := tc_name tool_call in
  let tool_args := tc_args tool_call in
  match find_tool tools tool_name with
  | Some tool_func =>
      try_except
        (let* result := tool_invoke tool_func tool_args in
         ret (tool_messages ++ [ToolMessage result (tc_id tool_call)]))
        (fun e =>
           ret (tool_messages
                  ++ [ToolMessage ("Error: " +:+ exn_str e) (tc_id tool_call)]))
  | None => ret tool_messages
  end.

(** [tool_messages = []; for tool_call in ...: ...] *)
Definition dispatch (tool_calls : list ToolCall) : Run World (list Message) :=
  for_each tool_calls execute_tool_call [].

(** [while iteration < max_iterations: iteration += 1; ...] followed by
    the [return] after the loop. [remaining] is
    [max_iterations - iteration]. *)
Fixpoint agent_loop (remaining : nat) (messages : list Message)
    (current_response : AIMsg) : Run World string :=
  match remaining with
  | 0 => lift_outcome (extract_response_text (RMessage current_response))
  | S remaining' =>
      if negb (requests_tools current_response) then
        lift_outcome (extract_response_text (RMessage current_response))
      else
        let* tool_messages := dispatch (tool_calls current_response) in
        let messages :=
          messages
            ++ [AIMessage (MkAIMsg (content current_response)
                                   (tool_calls current_response))]
            ++ tool_messages in
        let* current_response := llm_with_tools_invoke transport messages in
        agent_loop remaining' messages current_response
  end.

(** [_handle_tool_calls], with its local constant [max_iterations] as an
    argument. *)
Definition _handle_tool_calls_with (max_iterations : nat) (response : AIMsg)
    (user_input : string) (chat_history : list Message) : Run World string :=
  let* messages := lift_outcome (format_messages system_prompt chat_history user_input) in
  agent_loop max_iterations messages response.

Definition process_query_with (max_iterations : nat) (user_input : string)
    (chat_history : option (list Message)) : Run World string :=
  let chat_history :=
    match chat_history with
    | None => []
    | Some h => h
    end in
  try_except
    (let* messages :=
       lift_outcome (format_messages system_prompt chat_history user_input) in
     let* response := llm_with_tools_invoke transport messages in
     if requests_tools response then
       _handle_tool_calls_with max_iterations response user_input chat_history
     else
       lift_outcome (extract_response_text (RMessage response)))
    (fun e => ret (error_msg e)).

(** [max_iterations = 5  # Prevent infinite loops] *)
Definition max_iterations : nat := 5.

Definition _handle_tool_calls : AIMsg -> string -> list Message -> Run World string :=
  _handle_tool_calls_with max_iterations.

Definition process_query : string -> option (list Message) -> Run World string :=
  process_query_with max_iterations.

End Agent.
End Ch09.

(** ** Chapter 08: [agents/log_analyzer.py], one dispatch round *)

Module Ch08.
Section Agent.
Context {World : Type}.
Variable transport : Transport World.
(** [self.tools = get_log_tools()] *)
Variable tools : list (Tool World).
(** The template made of [Config.get_system_prompt()]. *)
Variable system_prompt : SystemTemplate.

(** The body of [for tool_call in response.tool_calls]; an entry of
    [tool_results] is the dict [{'tool': ..., 'result': ...}]. *)
Definition execute_tool_call (tool_call : ToolCall)
    (tool_results : list (string * string)) : Run World (list (string * string)) :=
  let tool_name := tc_name tool_call in
  let tool_args := tc_args tool_call in
  match find_tool tools tool_name with
  | Some tool_func =>
      try_except
        (let* result := tool_invoke tool_func tool_args in
         ret (tool_results ++ [(tool_name, result)]))
        (fun e => ret (tool_results ++ [(tool_name, "Error: " +:+ exn_str e)]))
  | None => ret tool_results
  end.

Definition dispatch (tool_calls : list ToolCall) : Run World (list (string * string)) :=
  for_each tool_calls execute_tool_call [].

Definition analysis_prompt (user_input : string) (tool_results : list (string * string))
  : string :=
  let analysis_prompt := "User asked: " +:+ user_input +:+ nl +:+ nl in
  let analysis_prompt := analysis_prompt +:+ "Tool results:" +:+ nl in
  let analysis_prompt :=
    foldl (fun acc tr => acc +:+ nl +:+ fst tr +:+ ":" +:+ nl +:+ snd tr +:+ nl)
          analysis_prompt tool_results in
  analysis_prompt +:+ nl
    +:+ "Please analyze these results and answer the user's question.".

Definition _handle_tool_calls (response : AIMsg) (user_input : string)
    (chat_history : list Message) : Run World string :=
  let* tool_results := dispatch (tool_calls response) in
  let* final_response :=
    llm_invoke transport [HumanMessage (analysis_prompt user_input tool_results)] in
  lift_outcome (extract_response_text (RMessage final_response)).

Definition process_query (user_input : string) (chat_history : option (list Message))
  : Run World string :=
  let chat_history :=
    match chat_history with
    | None => []
    | Some h => h
    end in
  try_except
    (let* messages :=
       lift_outcome (format_messages system_prompt chat_history user_input) in
     let* response := llm_with_tools_invoke transport messages in
     if requests_tools response then
       _handle_tool_calls response user_input chat_history
     else
       lift_outcome (extract_response_text (RMessage response)))
    (fun e => ret (error_msg e)).

End Agent.
End Ch08.

(** ** Chapter 07: [agents/log_analyzer.py], the agent that owns its memory *)

(** [sep.join(parts)] on strings. *)
Fixpoint sep_join (sep : string) (parts : list string) : string :=
  match parts with
  | [] => ""
  | [part] => part
  | part :: rest => part +:+ sep +:+ sep_join sep rest
  end.

Module Ch07.

(** The mutable fields of a [LogAnalyzerAgent]: [self.chat_history] is a
    reference to an [InMemoryChatMessageHistory] on the heap. *)
Record Agent : Type := MkAgent {
  chat_history : nat;
  session_id : string
}.

Section Agent.
Context {World : Type}.
Variable transport : Transport World.
(** [self.tools = get_log_tools()] *)
Variable tools : list (Tool World).
(** [self.prompt], as far as its system entry goes: the template made of
    [Config.get_system_prompt()] in [__init__]. *)
Variable prompt : SystemTemplate.
(** [Config.get_system_prompt()] *)
Variable system_prompt : string.

(** [__init__], as far as the agent's own state goes. *)
Definition init : Run World Agent :=
  let* hist := new_history in
  ret (MkAgent hist "default_session").

(** [lambda session_id: self.chat_history] *)
Definition get_session_history (self : Agent) (session_id : string) : nat :=
  chat_history self.

(** [for tool in self.tools: if tool.name == tool_name: result =
    tool.invoke(tool_args); tool_results.append(...); break] *)
Fixpoint invoke_first_match (candidates : list (Tool World)) (tool_call : ToolCall)
    (tool_results : list (string * string)) : Run World (list (string * string)) :=
  match candidates with
  | [] => ret tool_results
  | tool :: rest =>
      if String.eqb (name tool) (tc_name tool_call) then
        let* result := tool_invoke tool (tc_args tool_call) in
        ret (tool_results ++ [(tc_name tool_call, result)])
      else invoke_first_match rest tool_call tool_results
  end.

Definition dispatch (tool_calls : list ToolCall) : Run World (list (string * string)) :=
  for_each tool_calls (invoke_first_match tools) [].

Definition tool_context (tool_results : list (string * string)) : string :=
  sep_join (nl +:+ nl)
    (map (fun tr => "Tool: " +:+ fst tr +:+ nl +:+ "Result:" +:+ nl +:+ snd tr)
         tool_results).

Definition final_messages (user_input : string) (tool_results : list (string * string))
  : list Message :=
  [SystemMessage
     (system_prompt +:+ nl +:+ nl
        +:+ "You used tools to get information. Now provide a clear, concise answer based on the tool results. "
        +:+ "Do not generate fake data - only analyze what you actually received.");
   HumanMessage
     ("User asked: " +:+ user_input +:+ nl +:+ nl +:+ "Tool results:" +:+ nl
        +:+ tool_context tool_results +:+ nl +:+ nl
        +:+ "Please analyze these results and answer the user's question.")].

Definition _handle_tool_calls (self : Agent) (response : AIMsg) (user_input : string)
  : Run World string :=
  let* tool_results := dispatch (tool_calls response) in
  let* final_response := llm_invoke transport (final_messages user_input tool_results) in
  let* response_text := lift_outcome (extract_response_text (RMessage final_response)) in
  let* _ := add_user_message (chat_history self) user_input in
  let* _ := add_ai_message (chat_history self) response_text in
  ret response_text.

(** The [try] block of [process_query]. *)
Definition process_query_try (self : Agent) (user_input : string) : Run World string :=
  let* response :=
    chain_with_history_invoke transport prompt (get_session_history self)
      user_input (session_id self) in
  if requests_tools response then
    _handle_tool_calls self response user_input
  else
    let* response_text := lift_outcome (extract_response_text (RMessage response)) in
    let* _ := add_user_message (chat_history self) user_input in
    let* _ := add_ai_message (chat_history self) response_text in
    ret response_text.

Definition process_query (self : Agent) (user_input : string) : Run World string :=
  try_except (process_query_try self user_input) (fun e => ret (error_msg e)).

(** [self.chat_history = InMemoryChatMessageHistory()] *)
Definition clear_history (self : Agent) : Run World Agent :=
  let* hist := new_history in
  ret (MkAgent hist (session_id self)).

Definition get_history (self : Agent) : Run World (list Message) :=
  history_messages (chat_history self).

End Agent.
End Ch07.

(** ** Chapter 06: [langchain_log_analyzer.py], the single-file agent *)

Module Ch06.
Section Script.
Context {World : Type}.
Variable transport : Transport World.
(** [tools = [read_log_file, count_errors]] *)
Variable tools : list (Tool World).
(** The module-level [chat_history = InMemoryChatMessageHistory()]. *)
Variable chat_history : nat.

Definition system_prompt : string :=
  "You are a DevOps expert analyzing application logs. Use the available tools to read log files and analyze them.".

(** The module-level [prompt]: the literal has no brace. *)
Definition prompt : SystemTemplate := plain_prompt system_prompt.

(** [lambda session_id: chat_history] *)
Definition get_session_history (session_id : string) : nat := chat_history.

Definition final_messages (user_input result : string) : list Message :=
  [SystemMessage
     "You are a DevOps expert analyzing logs. The user asked a question and you used a tool to get information. Now provide a clear, concise answer to the user's question based on the tool results.";
   HumanMessage
     ("User asked: " +:+ user_input +:+ nl +:+ nl +:+ "Tool result:" +:+ nl
        +:+ result +:+ nl +:+ nl
        +:+ "Please analyze these actual logs and answer the user's question.")].

(** The inner [for tool in tools] of [main], with its [break]. *)
Fixpoint answer_first_match (candidates : list (Tool World)) (user_input : string)
    (tool_call : ToolCall) : Run World unit :=
  match candidates with
  | [] => ret tt
  | tool :: rest =>
      if String.eqb (name tool) (tc_name tool_call) then
        let* result := tool_invoke tool (tc_args tool_call) in
        let* final_response := llm_invoke transport (final_messages user_input result) in
        let* response_text :=
          lift_outcome (extract_response_text (RMessage final_response)) in
        let* _ := add_user_message chat_history user_input in
        add_ai_message chat_history response_text
      else answer_first_match rest user_input tool_call
  end.

(** One round of the [while True] loop of [main] for a line that is not
    [quit] or [exit]; [session_id] is the local of [main]. *)
Definition main_round (session_id user_input : string) : Run World unit :=
  try_except
    (let* response :=
       chain_with_history_invoke transport prompt get_session_history
         user_input session_id in
     if requests_tools response then
       for_each (tool_calls response)
         (fun tool_call _ => answer_first_match tools user_input tool_call) tt
     else
       let* response_text := lift_outcome (extract_response_text (RMessage response)) in
       let* _ := add_user_message chat_history user_input in
       add_ai_message chat_history response_text)
    (fun e => ret tt).

End Script.
End Ch06.

(** ** The measures and contracts used by the statements *)

(** The number of transport invocations made so far. *)
Definition invocations {World} (st : Store World) : nat := length (transport_log st).




(** A computation keeps an observation of the store when running it never
    changes that observation, whatever the outcome. *)
Definition keeps {World X A} (obs : Store World -> X) (m : Run World A) : Prop :=
  forall st, obs (snd (m st)) = obs st.

(** A computation that invokes the transport at most [n] times. *)
Definition invokes_at_most {World A} (n : nat) (m : Run World A) : Prop :=
  forall st, invocations (snd (m st)) <= invocations st + n.

(** The dispatch contract as the specification words it: no exception, and
    one result per request, in the order of the requests. *)
Definition one_result_per_request {World} (dispatch : list ToolCall -> Run World (list Message))
  : Prop :=
  forall tool_calls st, exists results,
    fst (dispatch tool_calls st) = Returns results
    /\ Forall2 (fun tc m => exists text, m = ToolMessage text (tc_id tc)) tool_calls results.

(** Session isolation, as a property of a session-history factory: distinct
    keys give distinct histories. *)
Definition sessions_isolated (get_session_history : string -> nat) : Prop :=
  forall k1 k2 : string, k1 <> k2 -> get_session_history k1 <> get_session_history k2.

(** [ToolMessage.tool_call_id] of the tool messages of a list. *)
Definition answers (tool_call : ToolCall) (m : Message) : Prop :=
  exists text, m = ToolMessage text (tc_id tool_call).

(** ** Concrete transports, tools and runs *)

Module Fixtures.

(** The world of a scripted run: the replies the transport still has to
    give, in order. *)
Definition Script : Type := list (Outcome AIMsg).

Definition scripted : Transport Script :=
  fun _ _ script =>
    match script with
    | [] => (Raises (MkExn "RuntimeError" "no reply scripted"), [])
    | o :: rest => (o, rest)
    end.

Definition start (script : Script) : Store Script := MkStore script [] ∅.

Definition list_log_files : Tool Script :=
  MkTool "list_log_files" (fun _ w => (Returns "app.log, error.log", w)).

(** A [read_log_file] that lets the failure of [open] through: only
    [app.log] is there. *)
Definition read_log_file : Tool Script :=
  MkTool "read_log_file"
    (fun args w =>
       match args !! "filename" with
       | Some (PStr filename) =>
           if String.eqb filename "app.log" then (Returns "INFO service started", w)
           else
             (Raises (MkExn "FileNotFoundError"
                        ("[Errno 2] No such file or directory: 'logs/"
                           +:+ filename +:+ "'")), w)
       | _ => (Raises (MkExn "ValidationError" "filename: Field required"), w)
       end).

Definition restart_kubernetes_pod : Tool Script :=
  MkTool "restart_kubernetes_pod" (fun _ w => (Returns "restarted", w)).

Definition log_tools : list (Tool Script) := [read_log_file; list_log_files].

Definition call (id tool_name : string) (args : gmap string PyVal) : ToolCall :=
  MkToolCall tool_name args id.

(** The requests used below: [read_log_file("missing.log")],
    [list_log_files()], and a request for a tool nobody registered. *)
Definition read_missing : ToolCall :=
  call "call_1" "read_log_file" {[ "filename" := PStr "missing.log" ]}.

Definition list_files : ToolCall := call "call_1" "list_log_files" ∅.

Definition delete_logs : ToolCall := call "call_1" "delete_logs" ∅.

Definition says (text : string) : AIMsg := MkAIMsg (CStr text) [].

Definition asks (tool_calls : list ToolCall) : AIMsg := MkAIMsg (CStr "") tool_calls.

(** The template of the text ["Use {ns} now"]: formatting it with
    [chat_history] and [input] raises [KeyError('ns')], whose [str] is
    ['ns'] with its quotes. *)
Definition unfilled_prompt : SystemTemplate :=
  fun _ _ => Raises (MkExn "KeyError" "'ns'").

(** A response that still asks for a tool and says something meanwhile,
    and one whose only block has [None] for text. *)
Definition still_working : AIMsg := MkAIMsg (CStr "still working") [list_files].


(** A chapter-07 agent just after [__init__] on an empty heap, and the
    store it lives in. *)
Definition agent : Ch07.Agent := Ch07.MkAgent 0 "default_session".

Definition agent_store (script : Script) : Store Script := MkStore script [] {[ 0 := [] ]}.

(** A transport over the trivial world that requests [list_log_files] at
    every call and reports how many messages it was sent. *)
Definition eager : Transport unit :=
  fun _ messages w =>
    (Returns (MkAIMsg (CStr (pretty (length messages))) [list_files]), w).

Definition eager_tools : list (Tool unit) :=
  [MkTool "list_log_files" (fun _ w => (Returns "app.log, error.log", w))].

Definition eager_restart : Tool unit :=
  MkTool "restart_kubernetes_pod" (fun _ w => (Returns "restarted", w)).

End Fixtures.

(** ** Chapters 08 and 09: [app.py], the Streamlit chat page *)

Module App.

(** One entry of [st.session_state.messages]: the dict
    [{"role": ..., "content": ...}]. *)
Record ChatEntry : Type := MkEntry { role : string; content : string }.

(** [st.session_state]: the key ['messages'] may be absent; [has_agent]
    tells whether the key ['agent'] is there. *)
Record SessionState : Type := MkSession {
  messages : option (list ChatEntry);
  has_agent : bool
}.

(** The widget values of one script run: whether the "Clear Chat History"
    button was clicked, and what [st.chat_input] returns. *)
Record Interaction : Type := MkInteraction {
  clear_clicked : bool;
  chat_input : option string
}.

(** How a script run ends: it reaches the end of [main], it is halted by
    [st.stop()], it asks for a rerun with [st.rerun()], or an exception
    leaves [main]. *)
Inductive ScriptEnd : Type :=
  | Completed
  | Stopped
  | Rerun
  | Crashed (e : Exn).

(** The body of the loop of [convert_to_langchain_messages]. *)
Definition convert_step (langchain_messages : list Message) (msg : ChatEntry)
    : list Message :=
  if String.eqb (role msg) "user" then
    langchain_messages ++ [HumanMessage (content msg)]
  else if String.eqb (role msg) "assistant" then
    langchain_messages ++ [AIMessage (MkAIMsg (CStr (content msg)) [])]
  else langchain_messages.

Definition convert_to_langchain_messages (messages : list ChatEntry) : list Message :=
  foldl convert_step [] messages.

Section Page.
Context {World : Type}.
(** [st.session_state.agent.process_query] *)
Variable process_query : string -> option (list Message) -> Run World string.
(** [Config.validate()] and [LogAnalyzerAgent()], and
    [isinstance(e, ValueError)]. *)
Variable validate : Run World unit.
Variable new_agent : Run World unit.
Variable is_value_error : Exn -> bool.

(** [initialize_session_state]; [None] as first component means that the
    script goes on. *)
Definition initialize_session_state (ss : SessionState)
    : Store World -> option ScriptEnd * SessionState * Store World :=
  fun st =>
    let ss :=
      match messages ss with
      | None => MkSession (Some []) (has_agent ss)
      | Some _ => ss
      end in
    if has_agent ss then (None, ss, st)
    else
      match (let* _ := validate in new_agent) st with
      | (Returns _, st') => (None, MkSession (messages ss) true, st')
      | (Raises e, st') =>
          if is_value_error e then (Some Stopped, ss, st')
          else (Some (Crashed e), ss, st')
      end.

(** The block under [if prompt := st.chat_input(...)]; the first component
    is the exception that left it, if any. *)
Definition chat_turn (prompt : string) (messages : list ChatEntry)
    : Store World -> option Exn * list ChatEntry * Store World :=
  fun st =>
    let messages := messages ++ [MkEntry "user" prompt] in
    let chat_history := convert_to_langchain_messages (removelast messages) in
    match process_query prompt (Some chat_history) st with
    | (Returns response, st') =>
        (None, messages ++ [MkEntry "assistant" response], st')
    | (Raises e, st') => (Some e, messages, st')
    end.

(** One run of [main]. *)
Definition main (ui : Interaction) (ss : SessionState)
    : Store World -> ScriptEnd * SessionState * Store World :=
  fun st =>
    match initialize_session_state ss st with
    | (Some halt, ss, st) => (halt, ss, st)
    | (None, ss, st) =>
        if clear_clicked ui then (Rerun, MkSession (Some []) (has_agent ss), st)
        else
          match chat_input ui with
          | None => (Completed, ss, st)
          | Some prompt =>
              if String.eqb prompt "" then (Completed, ss, st)
              else
                match chat_turn prompt (default [] (messages ss)) st with
                | (None, ms, st') => (Completed, MkSession (Some ms) (has_agent ss), st')
                | (Some e, ms, st') => (Crashed e, MkSession (Some ms) (has_agent ss), st')
                end
          end
    end.

(** The script runs caused by a list of interactions, one after the other,
    as long as no run is halted by [st.stop()] or an exception; a run that
    ends with [st.rerun()] is followed by a run with no widget active. *)
Fixpoint session (uis : list Interaction) (ss : SessionState)
    : Store World -> ScriptEnd * SessionState * Store World :=
  fun st =>
    match uis with
    | [] => (Completed, ss, st)
    | ui :: rest =>
        match main ui ss st with
        | (Completed, ss', st') => session rest ss' st'
        | (Rerun, ss', st') =>
            match main (MkInteraction false None) ss' st' with
            | (Completed, ss'', st'') => session rest ss'' st''
            | halted => halted
            end
        | halted => halted
        end
    end.

End Page.

(** The roles alternate, starting with the user. *)
Fixpoint alternating (expect_user : bool) (messages : list ChatEntry) : bool :=
  match messages with
  | [] => expect_user
  | msg :: rest =>
      String.eqb (role msg) (if expect_user then "user" else "assistant")
      && alternating (negb expect_user) rest
  end.

End App.

(** ** Chapter 07: [main.py] and [config.py], the terminal front end *)

Module Ch07Main.

(** What [input("You: ")] gives: a line, or a [KeyboardInterrupt] at the
    prompt. The end of the list is the end of the input stream, where
    [input] raises [EOFError]. *)
Inductive InputEvent : Type :=
  | Line (text : string)
  | Interrupt.

Section Terminal.
Context {World : Type}.
Variable transport : Transport World.
Variable tools : list (Tool World).
(** The prompt template of the agent and [Config.get_system_prompt()]. *)
Variable prompt : SystemTemplate.
Variable system_prompt : string.
(** [str.strip] and [str.lower]. *)
Variable strip : string -> string.
Variable lower : string -> string.
(** [Config.GEMINI_API_KEY] and [Config.LOG_DIRECTORY], as read from the
    environment when the module is loaded; [os.path.exists] and
    [os.makedirs]. *)
Variable GEMINI_API_KEY : option string.
Variable LOG_DIRECTORY : string.
Variable path_exists : string -> World -> bool.
Variable makedirs : string -> World -> Outcome unit * World.
(** The part of [LogAnalyzerAgent.__init__] that builds the model and
    binds the tools. *)
Variable model_setup : Run World unit.

(** [Config.validate] *)
Definition validate : Run World unit :=
  fun st =>
    let missing :=
      match GEMINI_API_KEY with
      | None => true
      | Some key => String.eqb key ""
      end in
    if missing then
      (Raises (MkExn "ValueError"
                 "GEMINI_API_KEY not found. Please set it in .env file or environment variables."),
       st)
    else if negb (path_exists LOG_DIRECTORY (world st)) then
      let '(o, w) := makedirs LOG_DIRECTORY (world st) in
      (o, MkStore w (transport_log st) (heap st))
    else (Returns tt, st).

(** [user_input.lower() in ['quit', 'exit', 'q']] *)
Definition is_quit (user_input : string) : bool :=
  existsb (String.eqb (lower user_input)) ["quit"; "exit"; "q"].

(** The [while True] loop of [main]. [printed] collects the responses shown
    after ["Agent: "]; the first component of the result is the exception
    that left the loop, if any. *)
Fixpoint interactive_loop (stdin : list InputEvent) (agent : Ch07.Agent)
    (printed : list string)
    : Store World -> option Exn * list string * Store World :=
  fun st =>
    match stdin with
    | [] => (None, printed, st)
    | Interrupt :: rest => interactive_loop rest agent printed st
    | Line text :: rest =>
        let user_input := strip text in
        if String.eqb user_input "" then interactive_loop rest agent printed st
        else if is_quit user_input then (None, printed, st)
        else if String.eqb (lower user_input) "clear" then
          match Ch07.clear_history agent st with
          | (Returns agent', st') => interactive_loop rest agent' printed st'
          | (Raises e, st') => (Some e, printed, st')
          end
        else if String.eqb (lower user_input) "help" then
          interactive_loop rest agent printed st
        else
          match Ch07.process_query transport tools prompt system_prompt agent user_input st with
          | (Returns response, st') =>
              interactive_loop rest agent (printed ++ [response]) st'
          | (Raises e, st') => (Some e, printed, st')
          end
    end.

(** [main]: the exit status and the responses printed. *)
Definition main (stdin : list InputEvent) : Store World -> nat * list string * Store World :=
  fun st =>
    match (let* _ := validate in let* _ := model_setup in Ch07.init) st with
    | (Raises e, st') => (1, [], st')
    | (Returns agent, st') =>
        match interactive_loop stdin agent [] st' with
        | (None, printed, st'') => (0, printed, st'')
        | (Some e, printed, st'') => (1, printed, st'')
        end
    end.

End Terminal.
End Ch07Main.

(** ** Chapter 06: the tools of [langchain_log_analyzer.py] *)

Module Ch06Tools.

(** [s.split(sep)] for a one-character separator. *)
Fixpoint split_on (sep : Ascii.ascii) (s : string) : list string :=
  match s with
  | EmptyString => [""]
  | String c rest =>
      if Ascii.eqb c sep then "" :: split_on sep rest
      else
        match split_on sep rest with
        | [] => [String c ""]
        | line :: lines => String c line :: lines
        end
  end.

(** [s.startswith(prefix)] *)
Fixpoint starts_with (prefix s : string) : bool :=
  match prefix, s with
  | EmptyString, _ => true
  | String a prefix', String b s' => Ascii.eqb a b && starts_with prefix' s'
  | String _ _, EmptyString => false
  end.

(** [sub in s] *)
Fixpoint contains (sub s : string) : bool :=
  starts_with sub s
  || match s with
     | EmptyString => false
     | String _ s' => contains sub s'
     end.

(** [[line for line in lines if 'ERROR' in line or 'error' in line]] *)
Definition error_lines (log_content : string) : list string :=
  List.filter (fun line => contains "ERROR" line || contains "error" line)
    (split_on (Ascii.ascii_of_nat 10) log_content).

Definition count_errors (log_content : string) : string :=
  "Found " +:+ pretty (length (error_lines log_content)) +:+ " error lines".

End Ch06Tools.

(** ** More concrete runs *)

Module Samples.

(** [str.strip] and [str.lower] on text made of ASCII letters and spaces. *)
Fixpoint lstrip_spaces (s : string) : string :=
  match s with
  | String c rest => if Ascii.eqb c (Ascii.ascii_of_nat 32) then lstrip_spaces rest else s
  | EmptyString => EmptyString
  end.

Definition strip (s : string) : string :=
  String.rev (lstrip_spaces (String.rev (lstrip_spaces s))).

Definition lower_char (c : Ascii.ascii) : Ascii.ascii :=
  let n := Ascii.nat_of_ascii c in
  if (65 <=? n)%nat && (n <=? 90)%nat then Ascii.ascii_of_nat (n + 32) else c.

Fixpoint lower (s : string) : string :=
  match s with
  | EmptyString => EmptyString
  | String c rest => String (lower_char c) (lower rest)
  end.

(** A file system that has everything it is asked for. *)
Definition path_exists : string -> Fixtures.Script -> bool := fun _ _ => true.

Definition makedirs : string -> Fixtures.Script -> Outcome unit * Fixtures.Script :=
  fun _ w => (Returns tt, w).

Definition model_setup : Run Fixtures.Script unit := ret tt.

End Samples.

(** The history object [hist] has gained [suffix] between two stores, and
    no other history object has changed. *)
Definition history_extended {World} (hist : nat) (suffix : list Message)
    (st st' : Store World) : Prop :=
  snapshot (heap st') hist = snapshot (heap st) hist ++ suffix
  /\ forall other, other <> hist -> heap st' !! other = heap st !! other.

(** ** Properties of the normalizer *)

Section Normalizer.

Lemma collect_text_parts_acc blocks acc :
  collect_text_parts blocks acc = acc ++ concat (map block_text_parts blocks).
Proof.
  revert acc. induction blocks as [|b bs IH]; intros acc; simpl.
  - by rewrite app_nil_r.
  - by rewrite IH, app_assoc.
Qed.

Lemma str_join_from_strs i (ss : list string) :
  str_join_from i (map PStr ss) = Returns (concat_strings ss).
Proof.
  revert i. induction ss as [|s ss IH]; intros i; simpl; [done|].
  by rewrite IH.
Qed.

Lemma block_text_parts_wf blocks :
  forallb text_is_str blocks = true ->
  concat (map block_text_parts blocks) = map PStr (omap block_text blocks).
Proof.
  induction blocks as [|b bs IH]; simpl; [done|].
  intros [Hb Hbs]%andb_true_iff. rewrite (IH Hbs). clear IH Hbs.
  destruct b as [s|d|r]; simpl in *; try done.
  destruct (d !! "text") as [[]|]; simpl in *; done.
Qed.

Lemma extract_blocks blocks tcs :
  forallb text_is_str blocks = true ->
  extract_response_text (RMessage (MkAIMsg (CBlocks blocks) tcs))
  = Returns (concat_strings (omap block_text blocks)).
Proof.
  intros Hwf. simpl. unfold str_join.
  rewrite collect_text_parts_acc, app_nil_l, (block_text_parts_wf _ Hwf).
  apply str_join_from_strs.
Qed.

End Normalizer.

(** C8, as amended. On a response whose content is a list of blocks in
    which every ['text'] entry is a string, [extract_response_text] returns
    the concatenation, in input order and without separators, of the
    textual portions of the blocks, skipping the blocks that carry none; on
    [[{text:"a"}, "b", {other:1}]] it returns ["ab"]. *)
Theorem extract_text_concatenates_blocks (blocks : list Block) (tcs : list ToolCall) :
  forallb text_is_str blocks = true ->
  extract_response_text (RMessage (MkAIMsg (CBlocks blocks) tcs))
  = Returns (concat_strings (omap block_text blocks))
  /\ extract_response_text (RMessage (MkAIMsg (CBlocks example_blocks) tcs))
     = Returns "ab".
Proof.
  intros Hwf. split.
  - by apply extract_blocks.
  - rewrite extract_blocks by reflexivity. reflexivity.
Qed.

Lemma extract_text_concatenates_blocks_witness :
  forallb text_is_str example_blocks = true
  /\ extract_response_text (RMessage (MkAIMsg (CBlocks example_blocks) []))
     = Returns (concat_strings (omap block_text example_blocks)).
Proof.
  split; [reflexivity|].
  apply (extract_text_concatenates_blocks example_blocks []). reflexivity.
Defined.

(** C8 as stated fails: on [[{text: None}, "b"]] the first block carries
    no text, yet it is not skipped: its ['text'] entry is collected,
    [''.join] raises a [TypeError], and no text at all is returned, in
    particular not ["b"]. *)
Lemma extract_text_raises_on_non_str_text :
  let blocks := [BDict {[ "text" := PNone ]}; BStr "b"] in
  let response := RMessage (MkAIMsg (CBlocks blocks) []) in
  extract_response_text response
  = Raises (MkExn "TypeError" "sequence item 0: expected str instance, NoneType found")
  /\ extract_response_text response <> Returns "b"
  /\ forall text, extract_response_text response <> Returns text.
Proof.
  intros blocks response.
  assert (H : extract_response_text response
              = Raises (MkExn "TypeError"
                          "sequence item 0: expected str instance, NoneType found"))
    by (vm_compute; reflexivity).
  rewrite H. repeat split; [done|by intros text].
Qed.

(** C9. A plain string is returned unchanged, whether it is the response
    itself or its [content], so [extract_response_text] is idempotent on
    strings. *)
Theorem extract_text_string_identity (x : string) (tcs : list ToolCall) :
  extract_response_text (RStr x) = Returns x
  /\ extract_response_text (RMessage (MkAIMsg (CStr x) tcs)) = Returns x
  /\ outcome_bind (extract_response_text (RStr x))
       (fun y => extract_response_text (RStr y))
     = extract_response_text (RStr x).
Proof. repeat split. Qed.

(** C10. [process_query] called with [chat_history] omitted or [None]
    behaves exactly as with the empty history list (chapters 08 and 09). *)
Theorem process_query_none_is_empty_history {World} (transport : Transport World)
    (log_tools : list (Tool World)) (restart : Tool World) (system_prompt : SystemTemplate)
    (user_input : string) (st : Store World) :
  Ch08.process_query transport log_tools system_prompt user_input None st
  = Ch08.process_query transport log_tools system_prompt user_input (Some []) st
  /\ Ch09.process_query transport log_tools restart system_prompt user_input None st
     = Ch09.process_query transport log_tools restart system_prompt user_input (Some []) st.
Proof. split; reflexivity. Qed.

(** ** Frame lemmas of the runtime *)

Section Frames.
Context {World : Type} {X : Type} (obs : Store World -> X).

Lemma keeps_ret {A} (a : A) : keeps obs (ret a).
Proof. by intros st. Qed.

Lemma keeps_lift_outcome {A} (o : Outcome A) : keeps obs (lift_outcome o).
Proof. by intros st. Qed.

Lemma keeps_bind {A B} (m : Run World A) (k : A -> Run World B) :
  keeps obs m -> (forall a, keeps obs (k a)) -> keeps obs (bind m k).
Proof.
  intros Hm Hk st. unfold bind. specialize (Hm st).
  destruct (m st) as [[a|e] st']; simpl in *; [|done].
  by rewrite Hk.
Qed.

Lemma keeps_try_except {A} (body : Run World A) (handler : Exn -> Run World A) :
  keeps obs body -> (forall e, keeps obs (handler e)) ->
  keeps obs (try_except body handler).
Proof.
  intros Hm Hk st. unfold try_except. specialize (Hm st).
  destruct (body st) as [[a|e] st']; simpl in *; [done|].
  by rewrite Hk.
Qed.

Lemma keeps_for_each {A B} (xs : list A) (body : A -> B -> Run World B) (acc : B) :
  (forall x b, keeps obs (body x b)) -> keeps obs (for_each xs body acc).
Proof.
  intros Hbody. revert acc.
  induction xs as [|x xs IH]; intros acc; simpl.
  - apply keeps_ret.
  - apply keeps_bind; [apply Hbody | intros b; apply IH].
Qed.

End Frames.

Section RuntimeFacts.
Context {World : Type} (transport : Transport World).

Lemma tool_invoke_keeps_log (tool : Tool World) args :
  keeps transport_log (tool_invoke tool args).
Proof. intros st. unfold tool_invoke. by destruct (invoke tool args (world st)). Qed.

Lemma tool_invoke_keeps_heap (tool : Tool World) args :
  keeps heap (tool_invoke tool args).
Proof. intros st. unfold tool_invoke. by destruct (invoke tool args (world st)). Qed.

Lemma model_invoke_keeps_heap b messages :
  keeps heap (model_invoke transport b messages).
Proof.
  intros st. unfold model_invoke. by destruct (transport b messages (world st)).
Qed.

Lemma model_invoke_log b messages st :
  transport_log (snd (model_invoke transport b messages st))
  = transport_log st
      ++ [MkExchange b messages (fst (model_invoke transport b messages st))].
Proof.
  unfold model_invoke. by destruct (transport b messages (world st)).
Qed.

Lemma model_invoke_once b messages :
  invokes_at_most 1 (model_invoke transport b messages).
Proof.
  intros st. unfold invocations. rewrite model_invoke_log, length_app. simpl. lia.
Qed.

Lemma keeps_log_invokes_none {A} (m : Run World A) :
  keeps transport_log m -> invokes_at_most 0 m.
Proof. intros Hm st. unfold invocations. rewrite Hm. lia. Qed.

Lemma invokes_at_most_le {A} n n' (m : Run World A) :
  n <= n' -> invokes_at_most n m -> invokes_at_most n' m.
Proof. intros Hle Hm st. specialize (Hm st). lia. Qed.

Lemma invokes_bind {A B} n n' (m : Run World A) (k : A -> Run World B) :
  invokes_at_most n m -> (forall a, invokes_at_most n' (k a)) ->
  invokes_at_most (n + n') (bind m k).
Proof.
  intros Hm Hk st. unfold bind. specialize (Hm st).
  destruct (m st) as [[a|e] st']; simpl in *; [|lia].
  specialize (Hk a st'). lia.
Qed.

Lemma invokes_try_except {A} n (body : Run World A) (handler : Exn -> Run World A) :
  invokes_at_most n body -> (forall e, keeps transport_log (handler e)) ->
  invokes_at_most n (try_except body handler).
Proof.
  intros Hm Hk st. unfold try_except. specialize (Hm st).
  destruct (body st) as [[a|e] st']; simpl in *; [done|].
  unfold invocations in *. by rewrite Hk.
Qed.

End RuntimeFacts.

(** ** The registry lookup *)

Section Registry.
Context {World : Type} (tools : list (Tool World)).

Lemma find_tool_registered tool_call :
  is_registered tools tool_call = true ->
  exists tool, find_tool tools (tc_name tool_call) = Some tool
               /\ name tool = tc_name tool_call.
Proof.
  unfold is_registered, find_tool.
  induction tools as [|t ts IH]; simpl; [done|].
  destruct (String.eqb (name t) (tc_name tool_call)) eqn:E; simpl.
  - intros _. exists t. split; [done|]. by apply String.eqb_eq.
  - apply IH.
Qed.

Lemma find_tool_unregistered tool_call :
  is_registered tools tool_call = false ->
  find_tool tools (tc_name tool_call) = None.
Proof.
  unfold is_registered, find_tool.
  induction tools as [|t ts IH]; simpl; [done|].
  destruct (String.eqb (name t) (tc_name tool_call)); simpl; [done|apply IH].
Qed.

End Registry.

(** ** Chapter 09: dispatch and the bound on the loop *)

Section Ch09Facts.
Context {World : Type} (transport : Transport World).
Context (log_tools : list (Tool World)) (restart : Tool World).
Context (system_prompt : SystemTemplate).

Lemma ch09_execute_tool_call_keeps {X} (obs : Store World -> X) tool_call acc :
  (forall tool args, keeps obs (tool_invoke tool args)) ->
  keeps obs (Ch09.execute_tool_call log_tools restart tool_call acc).
Proof.
  intros Htool. unfold Ch09.execute_tool_call.
  destruct (find_tool _ _) as [tool_func|]; [|apply keeps_ret].
  apply keeps_try_except; [|intros e; apply keeps_ret].
  apply keeps_bind; [apply Htool | intros r; apply keeps_ret].
Qed.

Lemma ch09_dispatch_keeps_log tool_calls :
  keeps transport_log (Ch09.dispatch log_tools restart tool_calls).
Proof.
  apply keeps_for_each. intros tc acc.
  apply ch09_execute_tool_call_keeps, tool_invoke_keeps_log.
Qed.

Lemma ch09_dispatch_keeps_heap tool_calls :
  keeps heap (Ch09.dispatch log_tools restart tool_calls).
Proof.
  apply keeps_for_each. intros tc acc.
  apply ch09_execute_tool_call_keeps, tool_invoke_keeps_heap.
Qed.

Lemma ch09_agent_loop_invokes n messages response :
  invokes_at_most n (Ch09.agent_loop transport log_tools restart n messages response).
Proof.
  revert messages response.
  induction n as [|n IH]; intros messages response; simpl.
  - apply keeps_log_invokes_none, keeps_lift_outcome.
  - destruct (negb (requests_tools response)).
    + apply (invokes_at_most_le 0); [lia|].
      apply keeps_log_invokes_none, keeps_lift_outcome.
    + apply (invokes_bind 0 (S n)).
      * apply keeps_log_invokes_none, ch09_dispatch_keeps_log.
      * intros tool_messages. apply (invokes_bind 1 n).
        -- apply model_invoke_once.
        -- intros r. apply IH.
Qed.

Lemma ch09_process_query_invokes n user_input chat_history :
  invokes_at_most (n + 1)
    (Ch09.process_query_with transport log_tools restart system_prompt
       n user_input chat_history).
Proof.
  unfold Ch09.process_query_with.
  apply invokes_try_except; [|intros e; apply keeps_ret].
  apply (invokes_bind 0 (n + 1));
    [apply keeps_log_invokes_none, keeps_lift_outcome|].
  intros messages.
  apply (invokes_at_most_le (1 + n)); [lia|].
  apply invokes_bind; [apply model_invoke_once|].
  intros response. destruct (requests_tools response).
  - unfold Ch09._handle_tool_calls_with.
    apply (invokes_bind 0 n); [apply keeps_log_invokes_none, keeps_lift_outcome|].
    intros messages'. apply ch09_agent_loop_invokes.
  - apply (invokes_at_most_le 0); [lia|].
    apply keeps_log_invokes_none, keeps_lift_outcome.
Qed.

End Ch09Facts.

(** C2. With iteration cap [N], one call of [process_query] invokes the
    model transport at most [N + 1] times; for the agent as written, whose
    cap is the constant 5 (the value of [Config.MAX_ITERATIONS]), that is at
    most 6 times. *)
Theorem transport_invoked_at_most_cap_plus_one {World} (transport : Transport World)
    (log_tools : list (Tool World)) (restart : Tool World) (system_prompt : SystemTemplate)
    (N : nat) (user_input : string) (chat_history : option (list Message))
    (st : Store World) :
  invocations
    (snd (Ch09.process_query_with transport log_tools restart system_prompt
            N user_input chat_history st))
  <= invocations st + (N + 1)
  /\ invocations
       (snd (Ch09.process_query transport log_tools restart system_prompt
               user_input chat_history st))
     <= invocations st + (Ch09.MAX_ITERATIONS + 1).
Proof.
  split; apply ch09_process_query_invokes.
Qed.

(** ** Dispatch: one result per request with a registered name *)

Section Ch09Dispatch.
Context {World : Type} (log_tools : list (Tool World)) (restart : Tool World).

(** A request with a registered name appends exactly one tool message that
    carries its id, whether the executor returns or raises. *)
Lemma ch09_execute_registered tool_call acc st :
  is_registered (Ch09.tools log_tools restart) tool_call = true ->
  exists text,
    fst (Ch09.execute_tool_call log_tools restart tool_call acc st)
    = Returns (acc ++ [ToolMessage text (tc_id tool_call)]).
Proof.
  intros [tool [Hfind _]]%find_tool_registered.
  unfold Ch09.execute_tool_call. rewrite Hfind.
  unfold try_except, bind, tool_invoke, ret.
  destruct (invoke tool (tc_args tool_call) (world st)) as [[result|e] w]; simpl.
  - by exists result.
  - by exists ("Error: " +:+ exn_str e).
Qed.

(** A request with an unknown name leaves the results and the store as
    they are. *)
Lemma ch09_execute_unregistered tool_call acc st :
  is_registered (Ch09.tools log_tools restart) tool_call = false ->
  Ch09.execute_tool_call log_tools restart tool_call acc st = (Returns acc, st).
Proof.
  intros Hfind%find_tool_unregistered.
  unfold Ch09.execute_tool_call. by rewrite Hfind.
Qed.

Lemma ch09_for_each_results tool_calls acc st :
  exists results,
    fst (for_each tool_calls (Ch09.execute_tool_call log_tools restart) acc st)
    = Returns (acc ++ results)
    /\ Forall2 answers
         (filter (fun tc => is_registered (Ch09.tools log_tools restart) tc = true)
                 tool_calls)
         results.
Proof.
  revert acc st. induction tool_calls as [|tc tcs IH]; intros acc st; simpl.
  - exists []. split; [by rewrite app_nil_r | constructor].
  - unfold bind.
    destruct (is_registered (Ch09.tools log_tools restart) tc) eqn:Hreg.
    + rewrite filter_cons_True by done.
      destruct (ch09_execute_registered tc acc st Hreg) as [text Htext].
      destruct (Ch09.execute_tool_call log_tools restart tc acc st) as [o st1].
      simpl in Htext. subst o.
      destruct (IH (acc ++ [ToolMessage text (tc_id tc)]) st1) as (rs & Hrs & Hall).
      exists (ToolMessage text (tc_id tc) :: rs). split.
      * rewrite Hrs. by rewrite <- app_assoc.
      * constructor; [by exists text | done].
    + rewrite filter_cons_False by (rewrite Hreg; done).
      rewrite ch09_execute_unregistered by done.
      apply IH.
Qed.

End Ch09Dispatch.

Section Ch08Dispatch.
Context {World : Type} (tools : list (Tool World)).

Lemma ch08_for_each_results tool_calls acc st :
  exists results,
    fst (for_each tool_calls (Ch08.execute_tool_call tools) acc st)
    = Returns (acc ++ results)
    /\ Forall2 (fun tc tr => fst tr = tc_name tc)
         (filter (fun tc => is_registered tools tc = true) tool_calls)
         results.
Proof.
  revert acc st. induction tool_calls as [|tc tcs IH]; intros acc st; simpl.
  - exists []. split; [by rewrite app_nil_r | constructor].
  - unfold bind, Ch08.execute_tool_call at 1.
    destruct (is_registered tools tc) eqn:Hreg.
    + rewrite filter_cons_True by done.
      destruct (find_tool_registered tools tc Hreg) as (tool & -> & _).
      unfold try_except, bind, tool_invoke, ret.
      destruct (invoke tool (tc_args tc) (world st)) as [[result|e] w]; simpl.
      * destruct (IH (acc ++ [(tc_name tc, result)])
                    (MkStore w (transport_log st) (heap st))) as (rs & Hrs & Hall).
        exists ((tc_name tc, result) :: rs). split.
        -- rewrite Hrs. by rewrite <- app_assoc.
        -- by constructor.
      * destruct (IH (acc ++ [(tc_name tc, "Error: " +:+ exn_str e)])
                    (MkStore w (transport_log st) (heap st))) as (rs & Hrs & Hall).
        exists ((tc_name tc, "Error: " +:+ exn_str e) :: rs). split.
        -- rewrite Hrs. by rewrite <- app_assoc.
        -- by constructor.
    + rewrite filter_cons_False by (rewrite Hreg; done).
      rewrite (find_tool_unregistered tools tc Hreg). apply IH.
Qed.

End Ch08Dispatch.

(** C1, as amended. Dispatching the tool-call requests of one response
    never raises and yields exactly one result per request whose tool name
    is registered, in the order of the requests: in chapter 09 a
    [ToolMessage] carrying the request's id, in chapter 08 an entry carrying
    its tool name. A request whose name matches no registered tool
    contributes nothing. *)
Theorem dispatch_one_result_per_registered_request {World}
    (log_tools : list (Tool World)) (restart : Tool World)
    (tool_calls : list ToolCall) (st : Store World) :
  (exists results,
     fst (Ch09.dispatch log_tools restart tool_calls st) = Returns results
     /\ Forall2 answers
          (filter (fun tc => is_registered (Ch09.tools log_tools restart) tc = true)
                  tool_calls)
          results
     /\ length results
        = length (filter (fun tc => is_registered (Ch09.tools log_tools restart) tc = true)
                         tool_calls))
  /\ (exists results,
        fst (Ch08.dispatch log_tools tool_calls st) = Returns results
        /\ Forall2 (fun tc tr => fst tr = tc_name tc)
             (filter (fun tc => is_registered log_tools tc = true) tool_calls)
             results
        /\ length results
           = length (filter (fun tc => is_registered log_tools tc = true) tool_calls)).
Proof.
  split.
  - destruct (ch09_for_each_results log_tools restart tool_calls [] st)
      as (rs & Hrs & Hall).
    exists rs. repeat split; [done|done|]. symmetry. by eapply Forall2_length.
  - destruct (ch08_for_each_results log_tools tool_calls [] st)
      as (rs & Hrs & Hall).
    exists rs. repeat split; [done|done|]. symmetry. by eapply Forall2_length.
Qed.

(** C1 as stated fails: a request for a tool that is not registered gets no
    result at all, so one request yields zero results. *)
Lemma dispatch_drops_unregistered_request :
  fst (Ch09.dispatch Fixtures.log_tools Fixtures.restart_kubernetes_pod
         [Fixtures.delete_logs] (Fixtures.start []))
  = Returns []
  /\ ~ one_result_per_request
         (Ch09.dispatch Fixtures.log_tools Fixtures.restart_kubernetes_pod).
Proof.
  split; [reflexivity|].
  intros H.
  destruct (H [Fixtures.delete_logs] (Fixtures.start []))
    as (results & Hrun & Hall).
  simpl in Hrun. injection Hrun as <-. inversion Hall.
Qed.

(** ** Chapter 09: exhausting the iteration budget *)

Lemma model_invoke_run {World} (transport : Transport World) b messages (st : Store World) :
  exists o st',
    model_invoke transport b messages st = (o, st')
    /\ transport_log st' = transport_log st ++ [MkExchange b messages o]
    /\ heap st' = heap st.
Proof.
  unfold model_invoke. destruct (transport b messages (world st)) as [o w].
  by eexists _, _.
Qed.

Section Ch09Budget.
Context {World : Type} (transport : Transport World).
Context (log_tools : list (Tool World)) (restart : Tool World).
Context (system_prompt : SystemTemplate).



End Ch09Budget.




(** The scenario of the specification, with text in the last response:
    the budget runs out after three calls and that text is returned. *)
Example budget_scenario_still_working :
  let run :=
    Ch09.process_query_with Fixtures.scripted Fixtures.log_tools
      Fixtures.restart_kubernetes_pod (plain_prompt "You are a DevOps expert.")
      2 "list log files" None
      (Fixtures.start
         [Returns (Fixtures.asks [Fixtures.list_files]);
          Returns (Fixtures.asks [Fixtures.list_files]);
          Returns Fixtures.still_working]) in
  fst run = Returns "still working" /\ invocations (snd run) = 3.
Proof. vm_compute. done. Qed.

(** The scenario of the specification: cap 2, a model that requests a tool
    at every turn. The third response is the last one obtained; its text
    (here the number of messages it was sent) is what the caller gets. *)
Example budget_scenario_cap_two :
  let run :=
    Ch09.process_query_with Fixtures.eager Fixtures.eager_tools
      Fixtures.eager_restart (plain_prompt "You are a DevOps expert.")
      2 "list log files" None (MkStore tt [] ∅) in
  fst run = Returns "6" /\ invocations (snd run) = 3.
Proof. vm_compute. done. Qed.

(** ** Chapter 07: what a turn does to the agent's memory *)

(** With a brace-free prompt the chain is sent the system text as it is. *)
Lemma chain_with_history_invoke_plain {World} (transport : Transport World)
    (text : string) (get_session_history : string -> nat) (input session_id : string) :
  chain_with_history_invoke transport (plain_prompt text) get_session_history
    input session_id
  = (let hist := get_session_history session_id in
     let* chat_history := history_messages hist in
     let* response :=
       llm_with_tools_invoke transport (prompt_messages text chat_history input) in
     let* _ := add_messages hist [HumanMessage input; AIMessage response] in
     ret response).
Proof. reflexivity. Qed.

Section Ch07Facts.
Context {World : Type} (transport : Transport World).
Context (tools : list (Tool World)) (system_prompt : string).

Lemma ch07_invoke_first_match_keeps {X} (obs : Store World -> X) candidates tool_call acc :
  (forall tool args, keeps obs (tool_invoke tool args)) ->
  keeps obs (Ch07.invoke_first_match candidates tool_call acc).
Proof.
  intros Htool. induction candidates as [|tool rest IH]; simpl.
  - apply keeps_ret.
  - destruct (String.eqb _ _); [|apply IH].
    apply keeps_bind; [apply Htool | intros r; apply keeps_ret].
Qed.

Lemma ch07_dispatch_keeps_heap tool_calls :
  keeps heap (Ch07.dispatch tools tool_calls).
Proof.
  apply keeps_for_each. intros tc acc.
  apply ch07_invoke_first_match_keeps, tool_invoke_keeps_heap.
Qed.

Lemma snapshot_insert (h : gmap nat (list Message)) hist ms :
  snapshot (<[hist := ms]> h) hist = ms.
Proof. unfold snapshot. by rewrite lookup_insert_eq. Qed.


Lemma ch07_record_turn hist u text (st : Store World) :
  exists st',
    (let* _ := add_user_message hist u in
     let* _ := add_ai_message hist text in
     ret text) st = (Returns text, st')
    /\ snapshot (heap st') hist
       = snapshot (heap st) hist ++ [HumanMessage u; AIMessage (MkAIMsg (CStr text) [])].
Proof.
  eexists. split; [reflexivity|]. simpl.
  rewrite !snapshot_insert. by rewrite <- app_assoc.
Qed.

Lemma ch07_try_success_history self u st text st' :
  Ch07.process_query_try transport tools (plain_prompt system_prompt) system_prompt self u st = (Returns text, st') ->
  exists response,
    snapshot (heap st') (Ch07.chat_history self)
    = snapshot (heap st) (Ch07.chat_history self)
        ++ [HumanMessage u; AIMessage response;
            HumanMessage u; AIMessage (MkAIMsg (CStr text) [])].
Proof.
  unfold Ch07.process_query_try. rewrite chain_with_history_invoke_plain.
  unfold Ch07.get_session_history.
  unfold bind at 1. unfold history_messages at 1.
  unfold bind at 1. unfold bind at 1.
  match goal with
  | |- context [llm_with_tools_invoke transport ?ms st] =>
      pose proof (model_invoke_keeps_heap transport true ms st) as Hh;
      fold (llm_with_tools_invoke transport ms) in Hh;
      destruct (llm_with_tools_invoke transport ms st) as [[response|e] st1]
  end; [|done].
  simpl in Hh. unfold bind at 1. cbn [add_messages ret].
  rewrite Hh.
  set (st2 := MkStore _ _ _).
  assert (Hsnap : snapshot (heap st2) (Ch07.chat_history self)
                  = snapshot (heap st) (Ch07.chat_history self)
                      ++ [HumanMessage u; AIMessage response])
    by apply snapshot_insert.
  clearbody st2. intros Hrun. exists response.
  destruct (requests_tools response).
  - unfold Ch07._handle_tool_calls in Hrun. unfold bind at 1 in Hrun.
    pose proof (ch07_dispatch_keeps_heap (tool_calls response) st2) as Hd.
    destruct (Ch07.dispatch tools (tool_calls response) st2) as [[results|e] st3];
      [|done].
    unfold bind at 1 in Hrun.
    match type of Hrun with
    | context [llm_invoke transport ?ms st3] =>
        pose proof (model_invoke_keeps_heap transport false ms st3) as Hl;
        fold (llm_invoke transport ms) in Hl;
        destruct (llm_invoke transport ms st3) as [[final|e] st4]
    end; [|done].
    unfold bind at 1, lift_outcome at 1 in Hrun.
    destruct (extract_response_text (RMessage final)) as [t|e]; [|done].
    destruct (ch07_record_turn (Ch07.chat_history self) u t st4) as (st5 & Hrec & Hs).
    rewrite Hrec in Hrun. injection Hrun as -> ->.
    rewrite Hs. simpl in Hd, Hl. unfold snapshot at 1. rewrite Hl, Hd.
    fold (snapshot (heap st2) (Ch07.chat_history self)).
    rewrite Hsnap. by rewrite <- app_assoc.
  - unfold bind at 1, lift_outcome at 1 in Hrun.
    destruct (extract_response_text (RMessage response)) as [t|e]; [|done].
    destruct (ch07_record_turn (Ch07.chat_history self) u t st2) as (st5 & Hrec & Hs).
    rewrite Hrec in Hrun. injection Hrun as -> ->.
    rewrite Hs, Hsnap. by rewrite <- app_assoc.
Qed.
End Ch07Facts.

(** ** The loop boundary: [process_query] never raises *)

Section Boundary.
Context {World : Type} (transport : Transport World).
Context (tools : list (Tool World)) (restart : Tool World) (system_prompt : string).
Context (template : SystemTemplate).

Lemma try_except_returns {A} (body : Run World A) (f : Exn -> A) st :
  exists a, fst (try_except body (fun e => ret (f e)) st) = Returns a.
Proof.
  unfold try_except. destruct (body st) as [[a|e] st']; simpl; eauto.
Qed.

Lemma ch07_process_query_returns self user_input st :
  exists text,
    fst (Ch07.process_query transport tools (plain_prompt system_prompt) system_prompt self user_input st)
    = Returns text.
Proof. apply try_except_returns. Qed.

Lemma ch08_process_query_returns user_input chat_history st :
  exists text,
    fst (Ch08.process_query transport tools template user_input chat_history st)
    = Returns text.
Proof. apply try_except_returns. Qed.

Lemma ch09_process_query_returns user_input chat_history st :
  exists text,
    fst (Ch09.process_query transport tools restart template
           user_input chat_history st)
    = Returns text.
Proof. apply try_except_returns. Qed.

(** Chapter 08 holds no memory of its own: the history objects on the heap
    are untouched by [process_query], whatever happens. *)
Lemma ch08_process_query_keeps_heap user_input chat_history :
  keeps heap (Ch08.process_query transport tools template user_input chat_history).
Proof.
  apply keeps_try_except; [|intros e; apply keeps_ret].
  apply keeps_bind; [apply keeps_lift_outcome|]. intros messages.
  apply keeps_bind; [apply model_invoke_keeps_heap|].
  intros response. destruct (requests_tools response); [|apply keeps_lift_outcome].
  apply keeps_bind.
  - apply keeps_for_each. intros tc acc. unfold Ch08.execute_tool_call.
    destruct (find_tool _ _); [|apply keeps_ret].
    apply keeps_try_except; [|intros e; apply keeps_ret].
    apply keeps_bind; [apply tool_invoke_keeps_heap | intros r; apply keeps_ret].
  - intros results. apply keeps_bind; [apply model_invoke_keeps_heap|].
    intros final. apply keeps_lift_outcome.
Qed.

(** Chapter 08 makes one dispatch round: at most two transport calls. *)
Lemma ch08_process_query_invokes user_input chat_history :
  invokes_at_most 2
    (Ch08.process_query transport tools template user_input chat_history).
Proof.
  apply invokes_try_except; [|intros e; apply keeps_ret].
  apply (invokes_bind 0 2); [apply keeps_log_invokes_none, keeps_lift_outcome|].
  intros messages.
  apply (invokes_bind 1 1); [apply model_invoke_once|].
  intros response. destruct (requests_tools response).
  - apply (invokes_bind 0 1).
    + apply keeps_log_invokes_none, keeps_for_each. intros tc acc.
      unfold Ch08.execute_tool_call.
      destruct (find_tool _ _); [|apply keeps_ret].
      apply keeps_try_except; [|intros e; apply keeps_ret].
      apply keeps_bind; [apply tool_invoke_keeps_log | intros r; apply keeps_ret].
    + intros results. apply (invokes_bind 1 0); [apply model_invoke_once|].
      intros final. apply keeps_log_invokes_none, keeps_lift_outcome.
  - apply (invokes_at_most_le 0); [lia|].
    apply keeps_log_invokes_none, keeps_lift_outcome.
Qed.

(** Chapter 07: when the first model call raises, the error string is
    returned and the memory is as it was. *)
Lemma ch07_first_call_failure_keeps_memory self user_input st e w :
  let messages :=
    prompt_messages system_prompt
      (snapshot (heap st) (Ch07.chat_history self)) user_input in
  transport true messages (world st) = (Raises e, w) ->
  Ch07.process_query transport tools (plain_prompt system_prompt) system_prompt self user_input st
  = (Returns (error_msg e),
     MkStore w (transport_log st ++ [MkExchange true messages (Raises e)]) (heap st)).
Proof.
  intros messages Hcall.
  unfold Ch07.process_query, try_except, Ch07.process_query_try.
  rewrite chain_with_history_invoke_plain. unfold Ch07.get_session_history.
  unfold bind at 1. unfold history_messages at 1.
  unfold bind at 1. unfold bind at 1.
  unfold llm_with_tools_invoke, model_invoke.
  fold messages. by rewrite Hcall.
Qed.

End Boundary.

(** ** Chapter 09: an executor that raises *)

Section Ch09Errors.
Context {World : Type} (transport : Transport World).
Context (log_tools : list (Tool World)) (restart : Tool World).

Lemma ch09_executor_exception_reported tool_call tool acc st e w :
  find_tool (Ch09.tools log_tools restart) (tc_name tool_call) = Some tool ->
  invoke tool (tc_args tool_call) (world st) = (Raises e, w) ->
  Ch09.execute_tool_call log_tools restart tool_call acc st
  = (Returns (acc ++ [ToolMessage ("Error: " +:+ exn_str e) (tc_id tool_call)]),
     MkStore w (transport_log st) (heap st)).
Proof.
  intros Hfind Hrun. unfold Ch09.execute_tool_call. rewrite Hfind.
  unfold try_except, bind, tool_invoke. by rewrite Hrun.
Qed.

(** After a dispatch round the loop goes on: the next model call is sent
    the conversation so far, the assistant turn with its tool calls, and
    the tool messages of the round. *)
Lemma ch09_loop_forwards_tool_messages n messages response st tool_messages st1 :
  requests_tools response = true ->
  Ch09.dispatch log_tools restart (tool_calls response) st
  = (Returns tool_messages, st1) ->
  Ch09.agent_loop transport log_tools restart (S n) messages response st
  = (let forwarded :=
       messages
         ++ [AIMessage (MkAIMsg (content response) (tool_calls response))]
         ++ tool_messages in
     let* current_response := llm_with_tools_invoke transport forwarded in
     Ch09.agent_loop transport log_tools restart n forwarded current_response) st1.
Proof.
  intros Hreq Hrun. cbn [Ch09.agent_loop]. rewrite Hreq. cbn [negb].
  unfold bind at 1. by rewrite Hrun.
Qed.

End Ch09Errors.

(** Chapter 09 on the scenario "list log files": one dispatch round, then
    the model's final text is returned as it is. *)
Example ch09_list_log_files_scenario :
  let run :=
    Ch09.process_query Fixtures.scripted Fixtures.log_tools
      Fixtures.restart_kubernetes_pod (plain_prompt "You are a DevOps expert.")
      "list log files" None
      (Fixtures.start
         [Returns (Fixtures.asks [Fixtures.list_files]);
          Returns (Fixtures.says "You have two log files: app.log and error.log.")]) in
  fst run = Returns "You have two log files: app.log and error.log."
  /\ sent <$> last (transport_log (snd run))
     = Some [SystemMessage "You are a DevOps expert.";
             HumanMessage "list log files";
             AIMessage (Fixtures.asks [Fixtures.list_files]);
             ToolMessage "app.log, error.log" "call_1"].
Proof. vm_compute. done. Qed.

(** Chapter 09 on the scenario of the specification: [read_log_file] raises
    on a missing file; the model is sent the failure text as the tool
    message of that call and its next answer is what the caller gets. *)
Example ch09_executor_exception_forwarded :
  let run :=
    Ch09.process_query Fixtures.scripted Fixtures.log_tools
      Fixtures.restart_kubernetes_pod (plain_prompt "You are a DevOps expert.")
      "read missing.log" None
      (Fixtures.start
         [Returns (Fixtures.asks [Fixtures.read_missing]);
          Returns (Fixtures.says "missing.log does not exist.")]) in
  fst run = Returns "missing.log does not exist."
  /\ sent <$> last (transport_log (snd run))
     = Some [SystemMessage "You are a DevOps expert.";
             HumanMessage "read missing.log";
             AIMessage (Fixtures.asks [Fixtures.read_missing]);
             ToolMessage "Error: [Errno 2] No such file or directory: 'logs/missing.log'" "call_1"].
Proof. vm_compute. done. Qed.

(** C4, failing input. Chapter 07 calls [tool.invoke] without a [try]: when
    the executor of a requested tool raises, the exception leaves the
    dispatcher, the turn is aborted with the error string of [process_query],
    and the model is never called again, so no failure payload reaches it. *)
Theorem ch07_executor_exception_aborts_turn :
  let run :=
    (let* self := Ch07.init in
     Ch07.process_query Fixtures.scripted Fixtures.log_tools
       (plain_prompt "You are a DevOps expert.") "You are a DevOps expert." self "read missing.log")
      (Fixtures.start
         [Returns (Fixtures.asks [Fixtures.read_missing]);
          Returns (Fixtures.says "missing.log does not exist.")]) in
  fst run = Returns "Error processing query: [Errno 2] No such file or directory: 'logs/missing.log'"
  /\ invocations (snd run) = 1
  /\ world (snd run) = [Returns (Fixtures.says "missing.log does not exist.")].
Proof. vm_compute. done. Qed.

(** C5, failing input. A direct answer without tool rounds: the history
    wrapper has already stored the user turn and the model's answer when
    [process_query] stores them again, so the memory grows by four turns. *)
Theorem ch07_successful_turn_appends_four :
  let run :=
    (let* self := Ch07.init in
     let* before := Ch07.get_history self in
     let* text :=
       Ch07.process_query_try Fixtures.scripted Fixtures.log_tools
         (plain_prompt "You are a DevOps expert.") "You are a DevOps expert." self "hi" in
     let* after := Ch07.get_history self in
     ret (text, before, after))
      (Fixtures.start [Returns (Fixtures.says "hello")]) in
  fst run
  = Returns ("hello", [],
             [HumanMessage "hi"; AIMessage (Fixtures.says "hello");
              HumanMessage "hi"; AIMessage (Fixtures.says "hello")]).
Proof. vm_compute. done. Qed.

(** C7, failing input. The first answer requests a tool and the second
    model call raises: [process_query] returns the error string, but the
    memory, empty before the call, now holds the user turn and the
    assistant's tool-call turn stored by the history wrapper. *)
Theorem ch07_second_call_failure_changes_memory :
  let run :=
    (let* self := Ch07.init in
     let* before := Ch07.get_history self in
     let* text :=
       Ch07.process_query Fixtures.scripted Fixtures.log_tools
         (plain_prompt "You are a DevOps expert.") "You are a DevOps expert." self "list log files" in
     let* after := Ch07.get_history self in
     ret (text, before, after))
      (Fixtures.start
         [Returns (Fixtures.asks [Fixtures.list_files]);
          Raises (MkExn "ConnectionError" "connection reset")]) in
  fst run
  = Returns ("Error processing query: connection reset", [],
             [HumanMessage "list log files";
              AIMessage (Fixtures.asks [Fixtures.list_files])]).
Proof. vm_compute. done. Qed.

(** ** Session keys and the memory behind them *)

(** C3 as stated fails: two distinct session keys get the same memory, and
    a turn stored while working under one key shows in the snapshot taken
    under the other. *)
Lemma sessions_share_one_memory :
  ~ sessions_isolated (Ch07.get_session_history Fixtures.agent)
  /\ ~ sessions_isolated (Ch06.get_session_history 0)
  /\ let run :=
       Ch07.process_query Fixtures.scripted Fixtures.log_tools
         (plain_prompt "You are a DevOps expert.") "You are a DevOps expert." (Ch07.MkAgent 0 "alice") "hi"
         (Fixtures.agent_store [Returns (Fixtures.says "hello")]) in
     HumanMessage "hi"
     ∈ snapshot (heap (snd run))
         (Ch07.get_session_history (Ch07.MkAgent 0 "alice") "bob").
Proof.
  split; [|split].
  - intros H. by apply (H "alice" "bob").
  - intros H. by apply (H "alice" "bob").
  - vm_compute. apply list_elem_of_here.
Qed.

(** C3, as amended. The session-history factory ignores the session key:
    for every key it returns the one memory the agent owns (in chapter 06
    the one memory of the module), the key a new agent works under is
    ["default_session"], and the turns stored while an utterance is
    processed under one key are in the snapshot taken under any other key. *)
Theorem session_history_ignores_key {World} (transport : Transport World)
    (tools : list (Tool World)) (system_prompt : string)
    (self : Ch07.Agent) (module_history : nat) (k1 k2 : string)
    (user_input text : string) (st st' : Store World) :
  Ch07.get_session_history self k1 = Ch07.chat_history self
  /\ Ch07.get_session_history self k1 = Ch07.get_session_history self k2
  /\ Ch06.get_session_history module_history k1
     = Ch06.get_session_history module_history k2
  /\ Ch07.session_id <$> outcome_value (fst (Ch07.init st)) = Some "default_session"
  /\ (Ch07.process_query_try transport tools (plain_prompt system_prompt) system_prompt
        (Ch07.MkAgent (Ch07.chat_history self) k1) user_input st
      = (Returns text, st') ->
      HumanMessage user_input
      ∈ snapshot (heap st') (Ch07.get_session_history self k2)
      /\ AIMessage (MkAIMsg (CStr text) [])
         ∈ snapshot (heap st') (Ch07.get_session_history self k2)).
Proof.
  do 4 (split; [reflexivity|]).
  intros Hrun.
  apply ch07_try_success_history in Hrun as [response Hsnap].
  unfold Ch07.get_session_history. simpl in Hsnap. rewrite Hsnap.
  split; apply elem_of_app; right.
  - apply list_elem_of_here.
  - do 3 apply list_elem_of_further. apply list_elem_of_here.
Qed.

Lemma session_history_ignores_key_witness :
  let st := Fixtures.agent_store [Returns (Fixtures.says "hello")] in
  let run :=
    Ch07.process_query_try Fixtures.scripted Fixtures.log_tools
      (plain_prompt "You are a DevOps expert.") "You are a DevOps expert." (Ch07.MkAgent 0 "alice") "hi" st in
  run = (Returns "hello", snd run)
  /\ HumanMessage "hi"
     ∈ snapshot (heap (snd run)) (Ch07.get_session_history Fixtures.agent "bob").
Proof.
  intros st run.
  assert (Hrun : run = (Returns "hello", snd run)) by reflexivity.
  split; [exact Hrun|].
  exact (proj1 (proj2 (proj2 (proj2 (proj2
    (session_history_ignores_key Fixtures.scripted Fixtures.log_tools
       "You are a DevOps expert." Fixtures.agent 0 "alice" "bob" "hi" "hello"
       st (snd run))))) Hrun)).
Defined.

(** ** The normalizer on ill-formed blocks *)

Lemma str_join_from_bad i (ss : list string) v rest :
  (forall s, v <> PStr s) ->
  exists e, str_join_from i (map PStr ss ++ v :: rest) = Raises e
            /\ exn_class e = "TypeError".
Proof.
  intros Hv. revert i. induction ss as [|s ss IH]; intros i; simpl.
  - destruct v; try (eexists; split; reflexivity). by destruct (Hv s).
  - destruct (IH (S i)) as (e & -> & He). by exists e.
Qed.

Lemma text_parts_bad blocks (ss : list string) i :
  forallb text_is_str blocks = false ->
  exists e, str_join_from i (map PStr ss ++ concat (map block_text_parts blocks)) = Raises e
            /\ exn_class e = "TypeError".
Proof.
  revert ss. induction blocks as [|b bs IH]; intros ss; simpl; [done|].
  destruct (text_is_str b) eqn:Hb; simpl.
  - intros Hbs. destruct b as [s|d|r]; simpl in *.
    + specialize (IH (ss ++ [s]) Hbs). by rewrite map_app, <- app_assoc in IH.
    + destruct (d !! "text") as [[]|]; simpl in *; try done.
      * specialize (IH (ss ++ [s]) Hbs). by rewrite map_app, <- app_assoc in IH.
      * by apply IH.
    + by apply IH.
  - intros _. destruct b as [s|d|r]; simpl in *; try done.
    destruct (d !! "text") as [v|] eqn:Hd; [|done]. simpl.
    apply str_join_from_bad. intros s ->. done.
Qed.

(** X1. On a list of blocks [extract_response_text] raises exactly when
    some dict block has a ['text'] entry that is not a string, and what it
    raises then is a [TypeError] (from [''.join]). *)
Theorem extract_raises_exactly_on_non_str_text (blocks : list Block) (tcs : list ToolCall) :
  ((exists e, extract_response_text (RMessage (MkAIMsg (CBlocks blocks) tcs)) = Raises e)
   <-> forallb text_is_str blocks = false)
  /\ (forall e, extract_response_text (RMessage (MkAIMsg (CBlocks blocks) tcs)) = Raises e ->
                exn_class e = "TypeError").
Proof.
  assert (Hbad : forallb text_is_str blocks = false ->
            exists e, extract_response_text (RMessage (MkAIMsg (CBlocks blocks) tcs)) = Raises e
                      /\ exn_class e = "TypeError").
  { intros H. simpl. unfold str_join. rewrite collect_text_parts_acc.
    apply (text_parts_bad blocks [] 0 H). }
  split; [split|].
  - intros [e He]. destruct (forallb text_is_str blocks) eqn:Hwf; [|done].
    rewrite (extract_blocks blocks tcs Hwf) in He. done.
  - intros H. destruct (Hbad H) as (e & He & _). by exists e.
  - intros e He. destruct (forallb text_is_str blocks) eqn:Hwf.
    + rewrite (extract_blocks blocks tcs Hwf) in He. done.
    + destruct (Hbad eq_refl) as (e' & He' & Hc). congruence.
Qed.

Lemma string_app_assoc (x y z : string) : (x +:+ y) +:+ z = x +:+ (y +:+ z).
Proof.
  induction x as [|c x IH]; [done|].
  change (String c ((x +:+ y) +:+ z) = String c (x +:+ (y +:+ z))). by rewrite IH.
Qed.

Lemma concat_strings_app (a b : list string) :
  concat_strings (a ++ b) = concat_strings a +:+ concat_strings b.
Proof.
  induction a as [|x a IH]; [done|].
  change (x +:+ concat_strings (a ++ b) = (x +:+ concat_strings a) +:+ concat_strings b).
  by rewrite IH, string_app_assoc.
Qed.

(** X2. For block lists whose text entries are strings, the text of an
    appended list is the text of the first list followed by the text of
    the second. *)
Theorem extract_text_of_appended_blocks (blocks1 blocks2 : list Block) (tcs : list ToolCall) :
  forallb text_is_str blocks1 = true ->
  forallb text_is_str blocks2 = true ->
  exists text1 text2,
    extract_response_text (RMessage (MkAIMsg (CBlocks blocks1) tcs)) = Returns text1
    /\ extract_response_text (RMessage (MkAIMsg (CBlocks blocks2) tcs)) = Returns text2
    /\ extract_response_text (RMessage (MkAIMsg (CBlocks (blocks1 ++ blocks2)) tcs))
       = Returns (text1 +:+ text2).
Proof.
  intros H1 H2. eexists _, _.
  split; [by apply extract_blocks|]. split; [by apply extract_blocks|].
  rewrite extract_blocks by (rewrite forallb_app, H1, H2; done).
  by rewrite omap_app, concat_strings_app.
Qed.

Lemma extract_text_of_appended_blocks_witness :
  exists text1 text2,
    extract_response_text (RMessage (MkAIMsg (CBlocks example_blocks) [])) = Returns text1
    /\ extract_response_text (RMessage (MkAIMsg (CBlocks [BStr "c"]) [])) = Returns text2
    /\ extract_response_text (RMessage (MkAIMsg (CBlocks (example_blocks ++ [BStr "c"])) []))
       = Returns (text1 +:+ text2).
Proof.
  apply (extract_text_of_appended_blocks example_blocks [BStr "c"] []); reflexivity.
Defined.


(** ** Chapter 06: splitting into lines and counting errors *)

Lemma split_on_cons sep s : exists line lines, Ch06Tools.split_on sep s = line :: lines.
Proof.
  induction s as [|c s (line & lines & IH)]; simpl; [by eexists _, _|].
  destruct (Ascii.eqb c sep); [by eexists _, _|].
  rewrite IH. by eexists _, _.
Qed.

Lemma split_on_app sep (a b : string) :
  Ch06Tools.split_on sep (a +:+ String sep b)
  = Ch06Tools.split_on sep a ++ Ch06Tools.split_on sep b.
Proof.
  induction a as [|c a IH].
  - change (Ch06Tools.split_on sep (String sep b) = [""] ++ Ch06Tools.split_on sep b).
    simpl. by rewrite Ascii.eqb_refl.
  - change (Ch06Tools.split_on sep (String c (a +:+ String sep b))
            = Ch06Tools.split_on sep (String c a) ++ Ch06Tools.split_on sep b).
    simpl. destruct (Ascii.eqb c sep); [by rewrite IH|].
    rewrite IH. by destruct (split_on_cons sep a) as (line & lines & ->).
Qed.

(** X18. The error lines of two log texts joined by a newline are the
    error lines of the first followed by those of the second, so
    [count_errors] reports the sum; and there are never more error lines
    than lines. *)
Theorem count_errors_adds_up (a b : string) :
  Ch06Tools.error_lines (a +:+ nl +:+ b)
  = Ch06Tools.error_lines a ++ Ch06Tools.error_lines b
  /\ Ch06Tools.count_errors (a +:+ nl +:+ b)
     = "Found "
         +:+ pretty (length (Ch06Tools.error_lines a) + length (Ch06Tools.error_lines b))
         +:+ " error lines"
  /\ length (Ch06Tools.error_lines a)
     <= length (Ch06Tools.split_on (Ascii.ascii_of_nat 10) a).
Proof.
  assert (H : Ch06Tools.error_lines (a +:+ nl +:+ b)
              = Ch06Tools.error_lines a ++ Ch06Tools.error_lines b).
  { unfold Ch06Tools.error_lines.
    change (a +:+ nl +:+ b) with (a +:+ String (Ascii.ascii_of_nat 10) b).
    by rewrite split_on_app, List.filter_app. }
  split; [done|]. split.
  - unfold Ch06Tools.count_errors. by rewrite H, length_app.
  - unfold Ch06Tools.error_lines. apply List.filter_length_le.
Qed.


(** ** Chapter 09: the trace of one call of [process_query] *)

Section Ch09Trace.
Context {World : Type} (transport : Transport World).
Context (log_tools : list (Tool World)) (restart : Tool World).
Context (system_prompt : SystemTemplate).

Lemma ch09_agent_loop_plain n messages response st :
  requests_tools response = false ->
  Ch09.agent_loop transport log_tools restart n messages response st
  = (extract_response_text (RMessage response), st).
Proof. intros H. destruct n; cbn [Ch09.agent_loop]; [done|]. by rewrite H. Qed.

Lemma ch09_agent_loop_trace n messages response st :
  exists new,
    transport_log (snd (Ch09.agent_loop transport log_tools restart n messages response st))
    = transport_log st ++ new
    /\ Forall (fun x => bound x = true /\ messages `prefix_of` sent x) new
    /\ (forall i x y, new !! i = Some x -> new !! S i = Some y ->
                      sent x `prefix_of` sent y)
    /\ (forall i x e, new !! i = Some x -> reply x = Raises e ->
                      S i = length new
                      /\ fst (Ch09.agent_loop transport log_tools restart
                                n messages response st) = Raises e)
    /\ (forall i x r, new !! i = Some x -> reply x = Returns r ->
                      requests_tools r = false -> S i = length new).
Proof.
  revert messages response st.
  induction n as [|n IH]; intros messages response st; cbn [Ch09.agent_loop].
  { exists []. rewrite app_nil_r. by repeat split. }
  destruct (negb (requests_tools response)).
  { exists []. rewrite app_nil_r. by repeat split. }
  unfold bind.
  pose proof (ch09_dispatch_keeps_log log_tools restart (tool_calls response) st) as Hlog.
  destruct (Ch09.dispatch log_tools restart (tool_calls response) st)
    as [[tool_messages|e] st1]; simpl in Hlog.
  2:{ exists []. simpl. rewrite app_nil_r. by repeat split. }
  set (forwarded := messages ++ _ ++ tool_messages).
  unfold llm_with_tools_invoke.
  destruct (model_invoke_run transport true forwarded st1) as (o & st2 & -> & Hlog2 & _).
  destruct o as [r1|e].
  - destruct (IH forwarded r1 st2) as (new & Hnew & Hall & Hchain & Hfail & Hplain).
    exists (MkExchange true forwarded (Returns r1) :: new).
    split; [by rewrite Hnew, Hlog2, Hlog, <- app_assoc|].
    split; [|split; [|split]].
    + constructor; [split; [done|by eexists]|].
      eapply Forall_impl; [exact Hall|]. intros x [? Hpre]. split; [done|].
      etrans; [|exact Hpre]. by eexists.
    + intros [|i] x y Hx Hy; simpl in *.
      * injection Hx as <-. simpl.
        by apply (Forall_lookup_1 _ _ _ _ Hall) in Hy as [_ ?].
      * eauto.
    + intros [|i] x e Hx He; simpl in *.
      * injection Hx as <-. done.
      * destruct (Hfail i x e Hx He) as [Hlen ?]. split; [simpl; lia|done].
    + intros [|i] x r Hx Hr Hreq; simpl in *.
      * injection Hx as <-. simpl in Hr. injection Hr as <-.
        rewrite (ch09_agent_loop_plain n forwarded r1 st2 Hreq) in Hnew. simpl in Hnew.
        apply (f_equal length) in Hnew. rewrite length_app in Hnew.
        destruct new; [done|simpl in Hnew; lia].
      * rewrite (Hplain i x r Hx Hr Hreq). done.
  - exists [MkExchange true forwarded (Raises e)]. simpl.
    split; [by rewrite Hlog2, Hlog|].
    split; [|split; [|split]].
    + constructor; [|done]. split; [done|by eexists].
    + by intros [|i] x y Hx Hy.
    + intros [|i] x e' Hx He; simpl in *; [|done].
      injection Hx as <-. simpl in He. by injection He as <-.
    + intros [|i] x r Hx Hr; simpl in *; [|done]. by injection Hx as <-.
Qed.

Lemma ch09_process_query_trace n user_input chat_history st :
  let run :=
    Ch09.process_query_with transport log_tools restart system_prompt
      n user_input chat_history st in
  exists new,
    transport_log (snd run) = transport_log st ++ new
    /\ match format_messages system_prompt (default [] chat_history) user_input with
       | Returns first => exists x rest, new = x :: rest /\ sent x = first
       | Raises e => new = [] /\ fst run = Returns (error_msg e)
       end
    /\ Forall (fun x => bound x = true) new
    /\ (forall i x' y, new !! i = Some x' -> new !! S i = Some y ->
                       sent x' `prefix_of` sent y)
    /\ (forall i x' e, new !! i = Some x' -> reply x' = Raises e ->
                       S i = length new /\ fst run = Returns (error_msg e))
    /\ (forall i x' r, new !! i = Some x' -> reply x' = Returns r ->
                       requests_tools r = false -> S i = length new).
Proof.
  intros run. subst run.
  unfold Ch09.process_query_with, Ch09._handle_tool_calls_with, try_except, bind,
    lift_outcome.
  assert (Hfirst : match chat_history with Some h => h | None => [] end
                   = default [] chat_history) by by destruct chat_history.
  rewrite Hfirst.
  destruct (format_messages system_prompt (default [] chat_history) user_input)
    as [first|e0].
  2:{ exists []. simpl. rewrite app_nil_r. by repeat split. }
  unfold llm_with_tools_invoke.
  destruct (model_invoke_run transport true first st) as (o & st0 & -> & Hlog0 & _).
  destruct o as [r0|e].
  - destruct (requests_tools r0) eqn:Hreq0.
    + destruct (ch09_agent_loop_trace n first r0 st0)
        as (new & Hnew & Hall & Hchain & Hfail & Hplain).
      destruct (Ch09.agent_loop transport log_tools restart n first r0 st0)
        as [o st'] eqn:Hloop.
      simpl in Hnew, Hfail.
      exists (MkExchange true first (Returns r0) :: new).
      split.
      { destruct o; simpl; by rewrite Hnew, Hlog0, <- app_assoc. }
      split; [by eexists _, _|]. split.
      { constructor; [done|]. eapply Forall_impl; [exact Hall|]. by intros ? [? _]. }
      split; [|split].
      * intros [|i] x y Hx Hy; simpl in *.
        -- injection Hx as <-. simpl.
           by apply (Forall_lookup_1 _ _ _ _ Hall) in Hy as [_ ?].
        -- eauto.
      * intros [|i] x e Hx He; simpl in *.
        -- injection Hx as <-. done.
        -- destruct (Hfail i x e Hx He) as [Hlen Hres].
           split; [simpl; lia|]. simpl in Hres. by subst o.
      * intros [|i] x r Hx Hr Hreq; simpl in *.
        -- injection Hx as <-. simpl in Hr. injection Hr as <-. congruence.
        -- by rewrite (Hplain i x r Hx Hr Hreq).
    + exists [MkExchange true first (Returns r0)].
      split; [by destruct (extract_response_text (RMessage r0))|].
      split; [by eexists _, _|]. split; [by repeat constructor|]. split; [|split].
      * by intros [|i] x y Hx Hy.
      * intros [|i] x e Hx He; simpl in *; [|done]. by injection Hx as <-.
      * by intros [|i] x r Hx Hr.
  - exists [MkExchange true first (Raises e)]. simpl.
    split; [done|]. split; [by eexists _, _|]. split; [by repeat constructor|].
    split; [|split].
    + by intros [|i] x y Hx Hy.
    + intros [|i] x e' Hx He; simpl in *; [|done].
      injection Hx as <-. simpl in He. by injection He as <-.
    + by intros [|i] x r Hx Hr.
Qed.

End Ch09Trace.

(** X3. Within one call of [process_query] (chapter 09) every transport
    call goes to the model with the tools bound and each call is sent
    everything the call before it was sent, and more. If formatting the
    prompt with the history and the utterance succeeds, the first call is
    sent exactly the formatted messages; if it raises, no call is made and
    the error string of that exception is returned. *)
Theorem ch09_conversation_only_grows {World} (transport : Transport World)
    (log_tools : list (Tool World)) (restart : Tool World) (system_prompt : SystemTemplate)
    (N : nat) (user_input : string) (chat_history : option (list Message))
    (st : Store World) :
  let run :=
    Ch09.process_query_with transport log_tools restart system_prompt
      N user_input chat_history st in
  exists new,
    transport_log (snd run) = transport_log st ++ new
    /\ Forall (fun x => bound x = true) new
    /\ (forall i x y, new !! i = Some x -> new !! S i = Some y ->
                      sent x `prefix_of` sent y)
    /\ match format_messages system_prompt (default [] chat_history) user_input with
       | Returns first => exists x rest, new = x :: rest /\ sent x = first
       | Raises e => new = [] /\ fst run = Returns (error_msg e)
       end.
Proof.
  intros run.
  destruct (ch09_process_query_trace transport log_tools restart system_prompt
              N user_input chat_history st)
    as (new & Hlog & Hfirst & Hall & Hchain & _).
  by exists new.
Qed.

(** X4. In chapter 09 no transport call follows one that raised or one
    that answered without tool calls: a failure is never retried, and
    [process_query] then returns the error string of that exception. *)
Theorem ch09_loop_ends_at_failure_or_plain_answer {World} (transport : Transport World)
    (log_tools : list (Tool World)) (restart : Tool World) (system_prompt : SystemTemplate)
    (N : nat) (user_input : string) (chat_history : option (list Message))
    (st : Store World) :
  let run :=
    Ch09.process_query_with transport log_tools restart system_prompt
      N user_input chat_history st in
  exists new,
    transport_log (snd run) = transport_log st ++ new
    /\ (forall i x e, new !! i = Some x -> reply x = Raises e ->
                      S i = length new /\ fst run = Returns (error_msg e))
    /\ (forall i x r, new !! i = Some x -> reply x = Returns r ->
                      requests_tools r = false -> S i = length new).
Proof.
  intros run.
  destruct (ch09_process_query_trace transport log_tools restart system_prompt
              N user_input chat_history st)
    as (new & Hlog & _ & _ & _ & Hfail & Hplain).
  by exists new.
Qed.


(** ** Direct answers, and the final call of chapter 08 *)

Section MoreRuns.
Context {World : Type} (transport : Transport World).
Context (tools : list (Tool World)).


End MoreRuns.

(** X5. When formatting the prompt with the history and the utterance
    succeeds and the first response requests no tool, [process_query]
    (chapters 08 and 09) invokes the transport exactly once, on the
    formatted messages, and returns the text of that response, or the error
    string when extracting the text raises; the world is as that one call
    left it. *)
Theorem direct_answer_takes_one_call {World} (transport : Transport World)
    (tools : list (Tool World)) (restart : Tool World) (system_prompt : SystemTemplate)
    (N : nat) (user_input : string) (chat_history : option (list Message))
    (st : Store World) (first : list Message) (response : AIMsg) (w : World) :
  let answer :=
    match extract_response_text (RMessage response) with
    | Returns text => text
    | Raises e => error_msg e
    end in
  let st' :=
    MkStore w (transport_log st ++ [MkExchange true first (Returns response)]) (heap st) in
  format_messages system_prompt (default [] chat_history) user_input = Returns first ->
  transport true first (world st) = (Returns response, w) ->
  requests_tools response = false ->
  Ch09.process_query_with transport tools restart system_prompt
    N user_input chat_history st
  = (Returns answer, st')
  /\ Ch08.process_query transport tools system_prompt user_input chat_history st
     = (Returns answer, st').
Proof.
  intros answer st' Hformat Hcall Hreq. subst answer st'.
  unfold Ch09.process_query_with, Ch08.process_query, try_except, bind.
  assert (Hfirst : match chat_history with Some h => h | None => [] end
                   = default [] chat_history) by by destruct chat_history.
  rewrite Hfirst, Hformat. unfold lift_outcome at 1 3.
  unfold llm_with_tools_invoke, model_invoke.
  rewrite Hcall, Hreq. unfold lift_outcome.
  by destruct (extract_response_text (RMessage response)).
Qed.

Lemma direct_answer_takes_one_call_witness :
  let st := Fixtures.start [Returns (Fixtures.says "All quiet.")] in
  Ch09.process_query_with Fixtures.scripted Fixtures.log_tools
    Fixtures.restart_kubernetes_pod (plain_prompt "You are a DevOps expert.") 5 "status?" None st
  = (Returns "All quiet.",
     MkStore []
       [MkExchange true
          [SystemMessage "You are a DevOps expert."; HumanMessage "status?"]
          (Returns (Fixtures.says "All quiet."))]
       ∅).
Proof.
  exact (proj1 (direct_answer_takes_one_call Fixtures.scripted Fixtures.log_tools
                  Fixtures.restart_kubernetes_pod (plain_prompt "You are a DevOps expert.") 5
                  "status?" None (Fixtures.start [Returns (Fixtures.says "All quiet.")])
                  [SystemMessage "You are a DevOps expert."; HumanMessage "status?"]
                  (Fixtures.says "All quiet.") [] eq_refl eq_refl eq_refl)).
Defined.




(** A system prompt with a variable that nothing fills in: chapters 08 and
    09 return the error string without calling the model. *)
Example unfilled_prompt_fails_before_any_call :
  let st := Fixtures.start [Returns (Fixtures.says "ok")] in
  Ch09.process_query_with Fixtures.scripted Fixtures.log_tools
    Fixtures.restart_kubernetes_pod Fixtures.unfilled_prompt 5 "status?" None st
  = (Returns "Error processing query: 'ns'", st)
  /\ Ch08.process_query Fixtures.scripted Fixtures.log_tools Fixtures.unfilled_prompt
       "status?" None st
     = (Returns "Error processing query: 'ns'", st).
Proof. by vm_compute. Qed.

(** ** Chapter 07: every way a turn can go *)

Section Ch07Runs.
Context {World : Type} (transport : Transport World).
Context (tools : list (Tool World)) (system_prompt : string).

Lemma ch07_dispatch_keeps_log tool_calls :
  keeps transport_log (Ch07.dispatch tools tool_calls).
Proof.
  apply keeps_for_each. intros tc acc.
  apply ch07_invoke_first_match_keeps, tool_invoke_keeps_log.
Qed.

Lemma history_extended_refl hist (st st' : Store World) :
  heap st' = heap st -> history_extended hist [] st st'.
Proof. intros H. split; rewrite H; [by rewrite app_nil_r|done]. Qed.

Lemma history_extended_trans hist s1 s2 (st st1 st2 : Store World) :
  history_extended hist s1 st st1 -> history_extended hist s2 st1 st2 ->
  history_extended hist (s1 ++ s2) st st2.
Proof.
  intros [Hs1 Ho1] [Hs2 Ho2]. split.
  - by rewrite Hs2, Hs1, app_assoc.
  - intros other Hne. rewrite Ho2 by done. by apply Ho1.
Qed.

Lemma add_messages_extends hist ms (st : Store World) :
  history_extended hist ms st (snd (add_messages hist ms st)).
Proof.
  split; simpl.
  - by rewrite snapshot_insert.
  - intros other Hne. by rewrite lookup_insert_ne.
Qed.

Lemma ch07_record_turn_run hist u text (st : Store World) :
  exists st',
    (let* _ := add_user_message hist u in
     let* _ := add_ai_message hist text in
     ret text) st = (Returns text, st')
    /\ transport_log st' = transport_log st
    /\ history_extended hist
         [HumanMessage u; AIMessage (MkAIMsg (CStr text) [])] st st'.
Proof.
  eexists. split; [reflexivity|]. split; [done|].
  apply (history_extended_trans hist [HumanMessage u] [AIMessage (MkAIMsg (CStr text) [])]
           st (snd (add_user_message hist u st))); apply add_messages_extends.
Qed.

Lemma ch07_process_query_run self user_input st o st' :
  Ch07.process_query transport tools (plain_prompt system_prompt) system_prompt self user_input st = (o, st') ->
  let hist := Ch07.chat_history self in
  let first := prompt_messages system_prompt (snapshot (heap st) hist) user_input in
  exists x rest suffix,
    transport_log st' = transport_log st ++ x :: rest
    /\ bound x = true /\ sent x = first
    /\ (rest = []
        \/ exists tool_results o2,
             rest = [MkExchange false
                       (Ch07.final_messages system_prompt user_input tool_results) o2])
    /\ history_extended hist suffix st st'
    /\ (suffix = []
        \/ (exists r, suffix = [HumanMessage user_input; AIMessage r])
        \/ (exists r text,
              o = Returns text
              /\ suffix = [HumanMessage user_input; AIMessage r;
                           HumanMessage user_input; AIMessage (MkAIMsg (CStr text) [])])).
Proof.
  intros Hrun hist first. subst hist. revert Hrun.
  set (hist := Ch07.chat_history self) in *.
  unfold Ch07.process_query, try_except, Ch07.process_query_try.
  rewrite chain_with_history_invoke_plain. unfold Ch07.get_session_history.
  fold hist.
  unfold bind at 1. unfold history_messages at 1.
  unfold bind at 1. unfold bind at 1.
  fold first. unfold llm_with_tools_invoke.
  destruct (model_invoke_run transport true first st) as (o0 & st0 & -> & Hlog0 & Hheap0).
  destruct o0 as [r0|e].
  2:{ intros [= <- <-]. exists (MkExchange true first (Raises e)), [], []. split; [done|]. repeat split; eauto.
      - by rewrite Hheap0, app_nil_r.
      - by rewrite Hheap0. }
  unfold bind at 1.
  pose proof (add_messages_extends hist [HumanMessage user_input; AIMessage r0] st0) as H1.
  destruct (add_messages hist [HumanMessage user_input; AIMessage r0] st0)
    as [[[]|?] st1] eqn:Hadd; [|done].
  assert (Hlog1 : transport_log st1 = transport_log st0) by by injection Hadd as <-.
  simpl in H1. clear Hadd. cbn [ret].
  assert (H1' : history_extended hist [HumanMessage user_input; AIMessage r0] st st1).
  { destruct H1 as [Hs Ho]. split; [by rewrite Hs, Hheap0|].
    intros other Hne. rewrite Ho by done. by rewrite Hheap0. }
  clear H1.
  destruct (requests_tools r0).
  - unfold Ch07._handle_tool_calls. fold hist. unfold bind at 1.
    pose proof (ch07_dispatch_keeps_log (tool_calls r0) st1) as Hlogd.
    pose proof (ch07_dispatch_keeps_heap tools (tool_calls r0) st1) as Hheapd.
    destruct (Ch07.dispatch tools (tool_calls r0) st1) as [[results|e] st2];
      simpl in Hlogd, Hheapd.
    2:{ intros [= <- <-].
        exists (MkExchange true first (Returns r0)), [],
          [HumanMessage user_input; AIMessage r0].
        split; [by rewrite Hlogd, Hlog1, Hlog0|]. repeat split; eauto.
        - by rewrite Hheapd; apply H1'.
        - intros. rewrite Hheapd. by apply H1'. }
    unfold bind at 1. unfold llm_invoke.
    destruct (model_invoke_run transport false
                (Ch07.final_messages system_prompt user_input results) st2)
      as (o2 & st3 & -> & Hlog3 & Hheap3).
    assert (Hlog : transport_log st3
                   = transport_log st ++ [MkExchange true first (Returns r0);
                       MkExchange false
                         (Ch07.final_messages system_prompt user_input results) o2]).
    { rewrite Hlog3, Hlogd, Hlog1, Hlog0, <- app_assoc. done. }
    assert (H3 : history_extended hist [HumanMessage user_input; AIMessage r0] st st3).
    { destruct H1' as [Hs Ho]. split; rewrite Hheap3, Hheapd; done. }
    destruct o2 as [final|e].
    + unfold bind at 1, lift_outcome at 1.
      destruct (extract_response_text (RMessage final)) as [text|e].
      * destruct (ch07_record_turn_run hist user_input text st3) as (st5 & -> & Hlog5 & H5).
        intros [= <- <-]. eexists _, [_], _. split; [by rewrite Hlog5|].
        split; [done|]. split; [done|]. split; [by eauto|]. split.
        -- exact (history_extended_trans hist _ _ st st3 st5 H3 H5).
        -- right. right. by eexists _, _.
      * intros [= <- <-].
        eexists _, [_], [HumanMessage user_input; AIMessage r0].
        split; [exact Hlog|]. by eauto 12.
    + intros [= <- <-].
      eexists _, [_], [HumanMessage user_input; AIMessage r0].
      split; [exact Hlog|]. by eauto 12.
  - unfold bind at 1, lift_outcome at 1.
    destruct (extract_response_text (RMessage r0)) as [text|e].
    + destruct (ch07_record_turn_run hist user_input text st1) as (st5 & -> & Hlog5 & H5).
      intros [= <- <-]. eexists _, [], _. split; [by rewrite Hlog5, Hlog1, Hlog0|].
      split; [done|]. split; [done|]. split; [by eauto|]. split.
      * exact (history_extended_trans hist _ _ st st1 st5 H1' H5).
      * right. right. by eexists _, _.
    + intros [= <- <-]. eexists _, [], [HumanMessage user_input; AIMessage r0].
      split; [by rewrite Hlog1, Hlog0|]. by eauto 12.
Qed.

End Ch07Runs.

(** X7. Whatever the outcome, [process_query] of chapter 07 only appends
    to the agent's memory, by 0, 2 or 4 turns, and leaves every other
    history object as it was. *)
Theorem ch07_memory_only_grows {World} (transport : Transport World)
    (tools : list (Tool World)) (system_prompt : string)
    (self : Ch07.Agent) (user_input : string) (st : Store World) :
  let st' := snd (Ch07.process_query transport tools (plain_prompt system_prompt) system_prompt self user_input st) in
  exists suffix,
    snapshot (heap st') (Ch07.chat_history self)
    = snapshot (heap st) (Ch07.chat_history self) ++ suffix
    /\ (length suffix = 0 \/ length suffix = 2 \/ length suffix = 4)
    /\ forall other, other <> Ch07.chat_history self ->
                     heap st' !! other = heap st !! other.
Proof.
  intros st'. subst st'.
  destruct (Ch07.process_query transport tools (plain_prompt system_prompt) system_prompt self user_input st)
    as [o st'] eqn:Hrun.
  destruct (ch07_process_query_run transport tools system_prompt self user_input st o st' Hrun)
    as (x & rest & suffix & _ & _ & _ & _ & [Hs Ho] & Hsuffix).
  exists suffix. split; [done|]. split; [|done].
  destruct Hsuffix as [->|[(r & ->)|(r & text & _ & ->)]]; simpl; auto.
Qed.

Lemma ch07_process_query_calls {World} (transport : Transport World)
    (tools : list (Tool World)) (system_prompt : string)
    (self : Ch07.Agent) (user_input : string) (st : Store World) :
  let st' := snd (Ch07.process_query transport tools (plain_prompt system_prompt) system_prompt self user_input st) in
  exists x rest,
    transport_log st' = transport_log st ++ x :: rest
    /\ bound x = true
    /\ sent x
       = prompt_messages system_prompt
           (snapshot (heap st) (Ch07.chat_history self)) user_input
    /\ (rest = []
        \/ exists tool_results o,
             rest = [MkExchange false
                       (Ch07.final_messages system_prompt user_input tool_results) o]).
Proof.
  intros st'. subst st'.
  destruct (Ch07.process_query transport tools (plain_prompt system_prompt) system_prompt self user_input st)
    as [o st'] eqn:Hrun.
  destruct (ch07_process_query_run transport tools system_prompt self user_input st o st' Hrun)
    as (x & rest & suffix & Hlog & Hb & Hsent & Hrest & _).
  by exists x, rest.
Qed.


(** X9. [clear_history] gives the agent a new, empty history object and
    leaves the old one untouched; the session key stays, and the next
    utterance is sent to the model with no earlier turn. *)
Theorem clear_history_starts_afresh {World} (transport : Transport World)
    (tools : list (Tool World)) (system_prompt : string)
    (self : Ch07.Agent) (user_input : string) (st : Store World) :
  exists self' st',
    Ch07.clear_history self st = (Returns self', st')
    /\ (Ch07.chat_history self' ∉ dom (heap st))
    /\ Ch07.session_id self' = Ch07.session_id self
    /\ snapshot (heap st') (Ch07.chat_history self') = []
    /\ (forall other, other <> Ch07.chat_history self' ->
                      heap st' !! other = heap st !! other)
    /\ exists x rest,
         transport_log
           (snd (Ch07.process_query transport tools (plain_prompt system_prompt) system_prompt self' user_input st'))
         = transport_log st ++ x :: rest
         /\ sent x = [SystemMessage system_prompt; HumanMessage user_input].
Proof.
  eexists _, _. split; [reflexivity|]. simpl.
  split; [apply is_fresh|]. split; [done|].
  split; [apply snapshot_insert|].
  split; [intros other Hne; by rewrite lookup_insert_ne|].
  match goal with
  | |- context [Ch07.process_query _ _ _ _ ?a _ ?s] =>
      destruct (ch07_process_query_calls transport tools system_prompt
                  a user_input s) as (x & rest & Hlog & _ & Hsent & _)
  end.
  exists x, rest. split; [exact Hlog|].
  rewrite Hsent. simpl. by rewrite snapshot_insert.
Qed.


(** ** The chat page *)

Lemma convert_foldl acc (entries : list App.ChatEntry) :
  foldl App.convert_step acc entries
  = acc ++ App.convert_to_langchain_messages entries.
Proof.
  unfold App.convert_to_langchain_messages.
  revert acc. induction entries as [|msg entries IH]; intros acc; simpl.
  - by rewrite app_nil_r.
  - rewrite IH, (IH (App.convert_step [] msg)), app_assoc. f_equal.
    unfold App.convert_step.
    destruct (String.eqb _ _); [done|]. destruct (String.eqb _ _); [done|].
    by rewrite app_nil_r.
Qed.

Lemma convert_cons msg (entries : list App.ChatEntry) :
  App.convert_to_langchain_messages (msg :: entries)
  = App.convert_step [] msg ++ App.convert_to_langchain_messages entries.
Proof. unfold App.convert_to_langchain_messages at 1. simpl. apply convert_foldl. Qed.

Lemma alternating_convert_length b (entries : list App.ChatEntry) :
  App.alternating b entries = true ->
  length (App.convert_to_langchain_messages entries) = length entries.
Proof.
  revert b. induction entries as [|msg entries IH]; intros b; [done|].
  simpl. intros [Hrole Hrest]%andb_true_iff.
  rewrite convert_cons, length_app, (IH _ Hrest). f_equal.
  unfold App.convert_step. apply String.eqb_eq in Hrole. rewrite Hrole.
  by destruct b.
Qed.

(** X10. [convert_to_langchain_messages] converts entry by entry and in
    order: a user entry becomes a human message, an assistant entry an AI
    message, an entry of any other role is dropped. *)
Theorem convert_keeps_order_and_drops_other_roles (a b : list App.ChatEntry) :
  App.convert_to_langchain_messages (a ++ b)
  = App.convert_to_langchain_messages a ++ App.convert_to_langchain_messages b
  /\ length (App.convert_to_langchain_messages a) <= length a
  /\ (forall who text,
        App.convert_to_langchain_messages [App.MkEntry who text]
        = if String.eqb who "user" then [HumanMessage text]
          else if String.eqb who "assistant" then [AIMessage (MkAIMsg (CStr text) [])]
          else []).
Proof.
  split; [|split].
  - unfold App.convert_to_langchain_messages at 1.
    rewrite foldl_app, convert_foldl. done.
  - induction a as [|msg a IH]; [done|].
    rewrite convert_cons, length_app. simpl.
    assert (length (App.convert_step [] msg) <= 1); [|lia].
    unfold App.convert_step.
    destruct (String.eqb _ _); [simpl; lia|]. destruct (String.eqb _ _); simpl; lia.
  - intros who text. unfold App.convert_to_langchain_messages, App.convert_step. simpl.
    destruct (String.eqb who "user"); [done|]. by destruct (String.eqb who "assistant").
Qed.

Section Page.
Context {World : Type}.
Context (process_query : string -> option (list Message) -> Run World string).
Context (validate new_agent : Run World unit) (is_value_error : Exn -> bool).

Lemma chat_turn_run prompt entries st :
  App.chat_turn process_query prompt entries st
  = match process_query prompt (Some (App.convert_to_langchain_messages entries)) st with
    | (Returns response, st') =>
        (None, entries ++ [App.MkEntry "user" prompt; App.MkEntry "assistant" response], st')
    | (Raises e, st') => (Some e, entries ++ [App.MkEntry "user" prompt], st')
    end.
Proof.
  unfold App.chat_turn. rewrite removelast_last.
  destruct (process_query _ _ st) as [[response|e] st']; [|done].
  by rewrite <- app_assoc.
Qed.

Lemma initialize_keeps_messages ss st :
  let '(_, ss', _) :=
    App.initialize_session_state validate new_agent is_value_error ss st in
  App.messages ss' = Some (default [] (App.messages ss)).
Proof.
  unfold App.initialize_session_state.
  destruct ss as [[ms|] agent]; simpl.
  - destruct agent; [done|].
    destruct (bind validate _ st) as [[[]|e] st']; [done|].
    by destruct (is_value_error e).
  - destruct agent; [done|].
    destruct (bind validate _ st) as [[[]|e] st']; [done|].
    by destruct (is_value_error e).
Qed.

Lemma main_keeps_messages ui ss st :
  App.clear_clicked ui = false ->
  let '(_, ss', _) := App.main process_query validate new_agent is_value_error ui ss st in
  exists more, App.messages ss' = Some (default [] (App.messages ss) ++ more).
Proof.
  intros Hclear. unfold App.main.
  pose proof (initialize_keeps_messages ss st) as Hinit.
  destruct (App.initialize_session_state _ _ _ ss st) as [[[halt|] ss1] st1].
  { exists []. by rewrite app_nil_r. }
  rewrite Hclear.
  destruct (App.chat_input ui) as [prompt|]; [|exists []; by rewrite app_nil_r].
  destruct (String.eqb prompt ""); [exists []; by rewrite app_nil_r|].
  rewrite chat_turn_run, Hinit. simpl.
  destruct (process_query _ _ st1) as [[response|e] st2]; simpl; by eexists.
Qed.

End Page.

Lemma alternating_app_turn b (entries : list App.ChatEntry) prompt response :
  App.alternating b entries = true ->
  App.alternating b
    (entries ++ [App.MkEntry "user" prompt; App.MkEntry "assistant" response]) = true.
Proof.
  revert b. induction entries as [|msg entries IH]; intros b; simpl.
  - by intros ->.
  - intros [Hrole Hrest]%andb_true_iff. by rewrite Hrole, (IH _ Hrest).
Qed.

Section PageInvariant.
Context {World : Type}.
Context (process_query : string -> option (list Message) -> Run World string).
Context (validate new_agent : Run World unit) (is_value_error : Exn -> bool).
Hypothesis process_query_returns :
  forall user_input chat_history st,
    exists text, fst (process_query user_input chat_history st) = Returns text.

Lemma main_alternating ui ss st :
  App.alternating true (default [] (App.messages ss)) = true ->
  let '(_, ss', _) := App.main process_query validate new_agent is_value_error ui ss st in
  App.alternating true (default [] (App.messages ss')) = true.
Proof.
  intros Hinv. unfold App.main.
  pose proof (initialize_keeps_messages validate new_agent is_value_error ss st) as Hinit.
  destruct (App.initialize_session_state _ _ _ ss st) as [[[halt|] ss1] st1].
  { by rewrite Hinit. }
  destruct (App.clear_clicked ui); [done|].
  destruct (App.chat_input ui) as [prompt|]; [|by rewrite Hinit].
  destruct (String.eqb prompt ""); [by rewrite Hinit|].
  rewrite chat_turn_run, Hinit. simpl.
  destruct (process_query_returns prompt
              (Some (App.convert_to_langchain_messages (default [] (App.messages ss)))) st1)
    as [response Hresp].
  destruct (process_query _ _ st1) as [o st2]. simpl in Hresp. subst o. simpl.
  by apply alternating_app_turn.
Qed.

Lemma session_alternating uis ss st :
  App.alternating true (default [] (App.messages ss)) = true ->
  let '(_, ss', _) :=
    App.session process_query validate new_agent is_value_error uis ss st in
  App.alternating true (default [] (App.messages ss')) = true.
Proof.
  revert ss st. induction uis as [|ui uis IH]; intros ss st Hinv; simpl; [done|].
  pose proof (main_alternating ui ss st Hinv) as H1.
  destruct (App.main _ _ _ _ ui ss st) as [[[| | |e] ss1] st1]; try done.
  - by apply IH.
  - pose proof (main_alternating (App.MkInteraction false None) ss1 st1 H1) as H2.
    destruct (App.main _ _ _ _ _ ss1 st1) as [[[| | |e] ss2] st2]; try done.
    by apply IH.
Qed.

End PageInvariant.

(** X13. Starting from a fresh browser session, after any sequence of
    interactions the stored messages alternate user, assistant, ..., ending
    with an assistant entry; so the conversion to LangChain messages drops
    none of them (chapters 08 and 09). *)
Theorem chat_messages_alternate {World} (transport : Transport World)
    (tools : list (Tool World)) (restart : Tool World) (system_prompt : SystemTemplate)
    (validate new_agent : Run World unit) (is_value_error : Exn -> bool)
    (uis : list App.Interaction) (st : Store World) :
  (let '(_, ss, _) :=
     App.session (Ch08.process_query transport tools system_prompt)
       validate new_agent is_value_error uis (App.MkSession None false) st in
   let entries := default [] (App.messages ss) in
   App.alternating true entries = true
   /\ length (App.convert_to_langchain_messages entries) = length entries)
  /\ (let '(_, ss, _) :=
        App.session (Ch09.process_query transport tools restart system_prompt)
          validate new_agent is_value_error uis (App.MkSession None false) st in
      let entries := default [] (App.messages ss) in
      App.alternating true entries = true
      /\ length (App.convert_to_langchain_messages entries) = length entries).
Proof.
  split.
  - pose proof (session_alternating (Ch08.process_query transport tools system_prompt)
                  validate new_agent is_value_error
                  (ch08_process_query_returns transport tools system_prompt)
                  uis (App.MkSession None false) st eq_refl) as H.
    destruct (App.session _ _ _ _ uis _ st) as [[halt ss] st'].
    split; [done|]. by eapply alternating_convert_length.
  - pose proof (session_alternating
                  (Ch09.process_query transport tools restart system_prompt)
                  validate new_agent is_value_error
                  (ch09_process_query_returns transport tools restart system_prompt)
                  uis (App.MkSession None false) st eq_refl) as H.
    destruct (App.session _ _ _ _ uis _ st) as [[halt ss] st'].
    split; [done|]. by eapply alternating_convert_length.
Qed.

(** X11. A chat turn of the page (chapters 08 and 09) never fails: it
    hands the agent the conversion of the messages stored before the prompt
    and stores exactly two new entries, the prompt and the agent's answer
    (which is the error string when the agent failed). *)
Theorem chat_turn_records_both_sides {World} (transport : Transport World)
    (tools : list (Tool World)) (restart : Tool World) (system_prompt : SystemTemplate)
    (prompt : string) (entries : list App.ChatEntry) (st : Store World) :
  let history := Some (App.convert_to_langchain_messages entries) in
  (exists response,
     Ch08.process_query transport tools system_prompt prompt history st
     = (Returns response,
        snd (Ch08.process_query transport tools system_prompt prompt history st))
     /\ App.chat_turn (Ch08.process_query transport tools system_prompt) prompt entries st
        = (None,
           entries ++ [App.MkEntry "user" prompt; App.MkEntry "assistant" response],
           snd (Ch08.process_query transport tools system_prompt prompt history st)))
  /\ (exists response,
        Ch09.process_query transport tools restart system_prompt prompt history st
        = (Returns response,
           snd (Ch09.process_query transport tools restart system_prompt prompt history st))
        /\ App.chat_turn (Ch09.process_query transport tools restart system_prompt)
             prompt entries st
           = (None,
              entries ++ [App.MkEntry "user" prompt; App.MkEntry "assistant" response],
              snd (Ch09.process_query transport tools restart system_prompt
                     prompt history st))).
Proof.
  intros history. split.
  - destruct (ch08_process_query_returns transport tools system_prompt prompt history st)
      as [response Hresp].
    exists response. rewrite chat_turn_run. fold history.
    destruct (Ch08.process_query _ _ _ prompt history st) as [o st']. simpl in *.
    by subst o.
  - destruct (ch09_process_query_returns transport tools restart system_prompt
                prompt history st) as [response Hresp].
    exists response. rewrite chat_turn_run. fold history.
    destruct (Ch09.process_query _ _ _ _ prompt history st) as [o st']. simpl in *.
    by subst o.
Qed.

(** X12. A script run in which the clear button was not clicked keeps all
    stored messages, in order, in front of whatever it adds; this holds
    however the run ends. *)
Theorem page_keeps_earlier_messages {World}
    (process_query : string -> option (list Message) -> Run World string)
    (validate new_agent : Run World unit) (is_value_error : Exn -> bool)
    (ui : App.Interaction) (ss : App.SessionState) (st : Store World) :
  App.clear_clicked ui = false ->
  let '(_, ss', _) := App.main process_query validate new_agent is_value_error ui ss st in
  exists more, App.messages ss' = Some (default [] (App.messages ss) ++ more).
Proof. apply main_keeps_messages. Qed.

Lemma page_keeps_earlier_messages_witness :
  let ss := App.MkSession (Some [App.MkEntry "user" "hi"; App.MkEntry "assistant" "hello"]) true in
  let ui := App.MkInteraction false (Some "list log files") in
  let '(_, ss', _) :=
    App.main (Ch08.process_query Fixtures.scripted Fixtures.log_tools (plain_prompt "You are a DevOps expert."))
      (ret tt) (ret tt) (fun _ => true) ui ss
      (Fixtures.start [Returns (Fixtures.says "There are two.")]) in
  exists more, App.messages ss' = Some (default [] (App.messages ss) ++ more).
Proof.
  exact (page_keeps_earlier_messages
           (Ch08.process_query Fixtures.scripted Fixtures.log_tools (plain_prompt "You are a DevOps expert."))
           (ret tt) (ret tt) (fun _ => true)
           (App.MkInteraction false (Some "list log files"))
           (App.MkSession (Some [App.MkEntry "user" "hi"; App.MkEntry "assistant" "hello"]) true)
           (Fixtures.start [Returns (Fixtures.says "There are two.")]) eq_refl).
Defined.


(** ** The terminal front end of chapter 07 *)

Section Terminal.
Context {World : Type} (transport : Transport World).
Context (tools : list (Tool World)) (system_prompt : string).
Context (strip lower : string -> string).

Lemma ch07_process_query_invokes self user_input :
  invokes_at_most 2 (Ch07.process_query transport tools (plain_prompt system_prompt) system_prompt self user_input).
Proof.
  intros st.
  destruct (ch07_process_query_calls transport tools system_prompt
              self user_input st) as (x & rest & Hlog & _ & _ & Hrest).
  unfold invocations. rewrite Hlog, length_app. simpl.
  destruct Hrest as [->|(results & o & ->)]; simpl; lia.
Qed.

Lemma interactive_loop_run stdin agent printed st :
  let '(failure, printed', st') :=
    Ch07Main.interactive_loop transport tools (plain_prompt system_prompt) system_prompt strip lower
      stdin agent printed st in
  failure = None
  /\ invocations st' <= invocations st + 2 * length stdin
  /\ (exists more, printed' = printed ++ more /\ length more <= length stdin).
Proof.
  revert agent printed st.
  induction stdin as [|event stdin IH]; intros agent printed st; simpl.
  { split; [done|]. split; [lia|]. exists []. by rewrite app_nil_r. }
  destruct event as [text|].
  2:{ specialize (IH agent printed st).
      destruct (Ch07Main.interactive_loop _ _ _ _ _ _ stdin agent printed st) as [[f p] s].
      destruct IH as (? & ? & more & ? & ?). split; [done|]. split; [lia|].
      exists more. split; [done|lia]. }
  destruct (String.eqb (strip text) "").
  { specialize (IH agent printed st).
    destruct (Ch07Main.interactive_loop _ _ _ _ _ _ stdin agent printed st) as [[f p] s].
    destruct IH as (? & ? & more & ? & ?). split; [done|]. split; [lia|].
    exists more. split; [done|lia]. }
  destruct (Ch07Main.is_quit lower (strip text)).
  { split; [done|]. split; [lia|]. exists [].
    split; [by rewrite app_nil_r|simpl; lia]. }
  destruct (String.eqb (lower (strip text)) "clear").
  { unfold Ch07.clear_history, bind, new_history, ret.
    match goal with
    | |- context [Ch07Main.interactive_loop _ _ _ _ _ _ stdin ?a printed ?s] =>
        specialize (IH a printed s);
        destruct (Ch07Main.interactive_loop transport tools (plain_prompt system_prompt) system_prompt strip lower
                    stdin a printed s) as [[f p] s']
    end.
    destruct IH as (? & Hinv & more & ? & ?). unfold invocations in *. simpl in Hinv.
    split; [done|]. split; [lia|]. exists more. split; [done|lia]. }
  destruct (String.eqb (lower (strip text)) "help").
  { specialize (IH agent printed st).
    destruct (Ch07Main.interactive_loop _ _ _ _ _ _ stdin agent printed st) as [[f p] s].
    destruct IH as (? & ? & more & ? & ?). split; [done|]. split; [lia|].
    exists more. split; [done|lia]. }
  pose proof (ch07_process_query_invokes agent (strip text) st) as Hq.
  destruct (ch07_process_query_returns transport tools system_prompt agent (strip text) st)
    as [response Hresp].
  destruct (Ch07.process_query transport tools (plain_prompt system_prompt) system_prompt agent (strip text) st)
    as [o st1]. simpl in Hresp, Hq. subst o.
  specialize (IH agent (printed ++ [response]) st1).
  destruct (Ch07Main.interactive_loop _ _ _ _ _ _ stdin agent _ st1) as [[f p] s].
  destruct IH as (? & ? & more & -> & ?). split; [done|]. split; [lia|].
  exists (response :: more). split; [by rewrite <- app_assoc|simpl; lia].
Qed.

Lemma interactive_loop_quit before text rest agent printed st :
  String.eqb (strip text) "" = false ->
  Ch07Main.is_quit lower (strip text) = true ->
  Ch07Main.interactive_loop transport tools (plain_prompt system_prompt) system_prompt strip lower
    (before ++ Ch07Main.Line text :: rest) agent printed st
  = Ch07Main.interactive_loop transport tools (plain_prompt system_prompt) system_prompt strip lower
      (before ++ [Ch07Main.Line text]) agent printed st.
Proof.
  intros Hne Hquit. revert agent printed st.
  induction before as [|event before IH]; intros agent printed st; simpl.
  { by rewrite Hne, Hquit. }
  destruct event as [line|]; [|apply IH].
  destruct (String.eqb (strip line) ""); [apply IH|].
  destruct (Ch07Main.is_quit lower (strip line)); [done|].
  destruct (String.eqb (lower (strip line)) "clear").
  { destruct (Ch07.clear_history agent st) as [[agent'|e] st']; [apply IH|done]. }
  destruct (String.eqb (lower (strip line)) "help"); [apply IH|].
  destruct (Ch07.process_query _ _ _ _ agent (strip line) st) as [[response|e] st'];
    [apply IH|done].
Qed.

End Terminal.


(** X14. The input loop of [main] (chapter 07) never ends with an
    exception, whatever the model and the tools do; it invokes the transport
    at most twice per input event and prints at most one response per
    event. *)
Theorem terminal_loop_ends_normally {World} (transport : Transport World)
    (tools : list (Tool World)) (system_prompt : string)
    (strip lower : string -> string)
    (stdin : list Ch07Main.InputEvent) (agent : Ch07.Agent) (st : Store World) :
  let '(failure, printed, st') :=
    Ch07Main.interactive_loop transport tools (plain_prompt system_prompt) system_prompt strip lower
      stdin agent [] st in
  failure = None
  /\ invocations st' <= invocations st + 2 * length stdin
  /\ length printed <= length stdin.
Proof.
  pose proof (interactive_loop_run transport tools system_prompt strip lower
                stdin agent [] st) as H.
  destruct (Ch07Main.interactive_loop _ _ _ _ _ _ stdin agent [] st) as [[f p] s].
  destruct H as (? & ? & more & -> & ?). done.
Qed.

(** X15. Once a line is a quit command, nothing after it matters: the loop
    ends there, with the same responses and the same store. *)
Theorem nothing_is_read_after_quit {World} (transport : Transport World)
    (tools : list (Tool World)) (system_prompt : string)
    (strip lower : string -> string)
    (before rest : list Ch07Main.InputEvent) (text : string)
    (agent : Ch07.Agent) (printed : list string) (st : Store World) :
  String.eqb (strip text) "" = false ->
  Ch07Main.is_quit lower (strip text) = true ->
  Ch07Main.interactive_loop transport tools (plain_prompt system_prompt) system_prompt strip lower
    (before ++ Ch07Main.Line text :: rest) agent printed st
  = Ch07Main.interactive_loop transport tools (plain_prompt system_prompt) system_prompt strip lower
      (before ++ [Ch07Main.Line text]) agent printed st.
Proof. apply interactive_loop_quit. Qed.

Lemma nothing_is_read_after_quit_witness :
  Ch07Main.interactive_loop Fixtures.scripted Fixtures.log_tools
    (plain_prompt "You are a DevOps expert.") "You are a DevOps expert." Samples.strip Samples.lower
    ([Ch07Main.Line "help"] ++ Ch07Main.Line "  Quit " :: [Ch07Main.Line "list log files"])
    Fixtures.agent [] (Fixtures.agent_store [Returns (Fixtures.says "unused")])
  = Ch07Main.interactive_loop Fixtures.scripted Fixtures.log_tools
      (plain_prompt "You are a DevOps expert.") "You are a DevOps expert." Samples.strip Samples.lower
      ([Ch07Main.Line "help"] ++ [Ch07Main.Line "  Quit "])
      Fixtures.agent [] (Fixtures.agent_store [Returns (Fixtures.says "unused")]).
Proof.
  apply (nothing_is_read_after_quit Fixtures.scripted Fixtures.log_tools
           "You are a DevOps expert." Samples.strip Samples.lower
           [Ch07Main.Line "help"] [Ch07Main.Line "list log files"] "  Quit "
           Fixtures.agent [] (Fixtures.agent_store [Returns (Fixtures.says "unused")]));
    reflexivity.
Defined.

(** X16. Without an API key (absent or empty) [main] exits with status 1
    before anything else happens: no directory is created, no agent is
    built, no input is read, the transport is not invoked. *)
Theorem main_without_api_key_exits_at_once {World} (transport : Transport World)
    (tools : list (Tool World)) (system_prompt : string)
    (strip lower : string -> string)
    (GEMINI_API_KEY : option string) (LOG_DIRECTORY : string)
    (path_exists : string -> World -> bool)
    (makedirs : string -> World -> Outcome unit * World)
    (model_setup : Run World unit)
    (stdin : list Ch07Main.InputEvent) (st : Store World) :
  GEMINI_API_KEY = None \/ GEMINI_API_KEY = Some "" ->
  Ch07Main.main transport tools (plain_prompt system_prompt) system_prompt strip lower GEMINI_API_KEY LOG_DIRECTORY
    path_exists makedirs model_setup stdin st
  = (1, [], st).
Proof. by intros [-> | ->]. Qed.

Lemma main_without_api_key_exits_at_once_witness :
  Ch07Main.main Fixtures.scripted Fixtures.log_tools
    (plain_prompt "You are a DevOps expert.") "You are a DevOps expert."
    Samples.strip Samples.lower None "logs" Samples.path_exists Samples.makedirs
    Samples.model_setup [Ch07Main.Line "list log files"]
    (Fixtures.start [Returns (Fixtures.says "unused")])
  = (1, [], Fixtures.start [Returns (Fixtures.says "unused")]).
Proof.
  apply (main_without_api_key_exits_at_once Fixtures.scripted Fixtures.log_tools
           "You are a DevOps expert." Samples.strip Samples.lower None "logs"
           Samples.path_exists Samples.makedirs Samples.model_setup
           [Ch07Main.Line "list log files"]
           (Fixtures.start [Returns (Fixtures.says "unused")])).
  by left.
Defined.


(** ** The registry: the first tool of a name wins *)

Lemma find_tool_app {World} (a b : list (Tool World)) tool_name :
  find_tool (a ++ b) tool_name
  = match find_tool a tool_name with
    | Some tool => Some tool
    | None => find_tool b tool_name
    end.
Proof.
  unfold find_tool. induction a as [|t a IH]; simpl; [done|].
  by destruct (String.eqb (name t) tool_name).
Qed.

Lemma find_tool_name {World} (tools : list (Tool World)) tool_name tool :
  find_tool tools tool_name = Some tool -> name tool = tool_name.
Proof.
  unfold find_tool. intros [_ H]%List.find_some. by apply String.eqb_eq.
Qed.

(** X17. The lookup by name in chapter 09's registry
    ([get_log_tools() + [restart_kubernetes_pod]]): the tool found bears the
    requested name; a log tool of that name is found before the restart
    tool; the restart tool is found when no log tool has its name; in
    general the first tool of a name wins. *)
Theorem registry_lookup_takes_first {World} (log_tools : list (Tool World))
    (restart : Tool World) (tool_name : string) :
  (forall tool, find_tool (Ch09.tools log_tools restart) tool_name = Some tool ->
                name tool = tool_name)
  /\ (forall tool, find_tool log_tools tool_name = Some tool ->
                   find_tool (Ch09.tools log_tools restart) tool_name = Some tool)
  /\ (find_tool log_tools tool_name = None ->
      find_tool (Ch09.tools log_tools restart) tool_name
      = if String.eqb (name restart) tool_name then Some restart else None)
  /\ (forall (before : list (Tool World)) (tool : Tool World) (after : list (Tool World)),
        Forall (fun t => name t <> name tool) before ->
        find_tool (before ++ tool :: after) (name tool) = Some tool).
Proof.
  unfold Ch09.tools, Ch09.get_all_tools.
  split; [intros tool; apply find_tool_name|].
  split; [intros tool H; by rewrite find_tool_app, H|].
  split; [intros H; by rewrite find_tool_app, H|].
  intros before tool after Hbefore. rewrite find_tool_app.
  assert (find_tool before (name tool) = None) as ->.
  { unfold find_tool. induction Hbefore as [|b bs Hb _ IH]; simpl; [done|].
    apply String.eqb_neq in Hb. by rewrite Hb. }
  unfold find_tool. simpl. by rewrite String.eqb_refl.
Qed.

(** ** Chapter 06: a round without a usable tool *)

Section Ch06Rounds.
Context {World : Type} (transport : Transport World).
Context (tools : list (Tool World)) (chat_history : nat).

Lemma ch06_answer_unregistered user_input tool_call st :
  is_registered tools tool_call = false ->
  Ch06.answer_first_match transport chat_history tools user_input tool_call st
  = (Returns tt, st).
Proof.
  unfold is_registered. induction tools as [|t ts IH]; simpl; [done|].
  destruct (String.eqb (name t) (tc_name tool_call)); simpl; [done|apply IH].
Qed.

Lemma ch06_for_each_unregistered user_input tool_calls st :
  forallb (fun tc => negb (is_registered tools tc)) tool_calls = true ->
  for_each tool_calls
    (fun tool_call _ =>
       Ch06.answer_first_match transport chat_history tools user_input tool_call) tt st
  = (Returns tt, st).
Proof.
  induction tool_calls as [|tc tcs IH]; simpl; [done|].
  intros [Htc Htcs]%andb_true_iff. apply negb_true_iff in Htc.
  unfold bind. rewrite ch06_answer_unregistered by done. by apply IH.
Qed.

End Ch06Rounds.

(** X20. In chapter 06, when the model requests only tools that are not
    registered, the round ends without a second model call and without an
    answer; the memory holds the two turns stored by the history wrapper
    and nothing else. *)
Theorem ch06_unknown_tools_leave_the_question_unanswered {World}
    (transport : Transport World) (tools : list (Tool World)) (chat_history : nat)
    (session_id user_input : string) (st : Store World) (response : AIMsg) (w : World) :
  let first :=
    prompt_messages Ch06.system_prompt (snapshot (heap st) chat_history) user_input in
  transport true first (world st) = (Returns response, w) ->
  requests_tools response = true ->
  forallb (fun tc => negb (is_registered tools tc)) (tool_calls response) = true ->
  Ch06.main_round transport tools chat_history session_id user_input st
  = (Returns tt,
     MkStore w
       (transport_log st ++ [MkExchange true first (Returns response)])
       (<[chat_history := snapshot (heap st) chat_history
                            ++ [HumanMessage user_input; AIMessage response]]> (heap st))).
Proof.
  intros first Hcall Hreq Hunknown.
  unfold Ch06.main_round, try_except, Ch06.prompt.
  rewrite chain_with_history_invoke_plain. unfold Ch06.get_session_history.
  unfold bind at 1. unfold bind at 1. unfold history_messages at 1.
  unfold bind at 1. unfold llm_with_tools_invoke, model_invoke.
  fold first. rewrite Hcall. unfold bind at 1. cbn [add_messages ret].
  rewrite Hreq. by rewrite ch06_for_each_unregistered.
Qed.

Lemma ch06_unknown_tools_leave_the_question_unanswered_witness :
  let response := Fixtures.asks [Fixtures.delete_logs] in
  Ch06.main_round Fixtures.scripted Fixtures.log_tools 0 "default_session"
    "delete the logs" (Fixtures.agent_store [Returns response])
  = (Returns tt,
     MkStore []
       ([] ++ [MkExchange true
           (prompt_messages Ch06.system_prompt [] "delete the logs") (Returns response)])
       (<[0 := [] ++ [HumanMessage "delete the logs"; AIMessage response]]> {[ 0 := [] ]})).
Proof.
  exact (ch06_unknown_tools_leave_the_question_unanswered Fixtures.scripted
           Fixtures.log_tools 0 "default_session" "delete the logs"
           (Fixtures.agent_store [Returns (Fixtures.asks [Fixtures.delete_logs])])
           (Fixtures.asks [Fixtures.delete_logs]) [] eq_refl eq_refl eq_refl).
Defined.
